(** * dwmac-sunxi: Allwinner sunxi DWMAC glue layer

    A shallow embedding of
    [drivers/net/ethernet/stmicro/stmmac/dwmac-sunxi.c] and the properties
    of its [init], [exit], [fix_speed] and [probe] entry points.

    The driver code is embedded as functions in a small state monad over a
    [world] holding the transmit clock, the optional PHY supply and the
    EMAC clock register of the CCU, together with the list of collaborator
    calls made so far.  The private data ([struct sunxi_priv_data]) is
    passed to each entry point and handed back updated. *)

From Stdlib Require Import ZArith List Bool String Lia.
Import ListNotations.
Local Open Scope Z_scope.

(** ** Error numbers (as returned negated by the kernel) *)

Definition ENOMEM : Z := 12.
Definition ENODEV : Z := 19.
Definition EINVAL : Z := 22.
Definition EPROBE_DEFER : Z := 517.

(** ** Data model *)

(** Modelled from the spec: the interface-mode enumeration of
    [linux/phy.h] is not part of the glue layer.  Its values are listed in
    their declaration order; the zero value is [PHY_INTERFACE_MODE_NA],
    which is what a zero-filled allocation holds. *)
Inductive phy_interface_t : Type :=
| PHY_INTERFACE_MODE_NA
| PHY_INTERFACE_MODE_INTERNAL
| PHY_INTERFACE_MODE_MII
| PHY_INTERFACE_MODE_GMII
| PHY_INTERFACE_MODE_SGMII
| PHY_INTERFACE_MODE_TBI
| PHY_INTERFACE_MODE_REVMII
| PHY_INTERFACE_MODE_RMII
| PHY_INTERFACE_MODE_RGMII
| PHY_INTERFACE_MODE_RGMII_ID
| PHY_INTERFACE_MODE_RGMII_RXID
| PHY_INTERFACE_MODE_RGMII_TXID
| PHY_INTERFACE_MODE_RTBI
| PHY_INTERFACE_MODE_SMII
| PHY_INTERFACE_MODE_XGMII
| PHY_INTERFACE_MODE_MOCA
| PHY_INTERFACE_MODE_QSGMII
| PHY_INTERFACE_MODE_TRGMII
| PHY_INTERFACE_MODE_1000BASEX
| PHY_INTERFACE_MODE_2500BASEX
| PHY_INTERFACE_MODE_RXAUI
| PHY_INTERFACE_MODE_XAUI
| PHY_INTERFACE_MODE_10GKR
| PHY_INTERFACE_MODE_USXGMII.

(** Modelled from the spec: the RGMII family is the plain RGMII mode and
    its three internal-delay variants. *)
Definition phy_interface_mode_is_rgmii (mode : phy_interface_t) : bool :=
  match mode with
  | PHY_INTERFACE_MODE_RGMII
  | PHY_INTERFACE_MODE_RGMII_ID
  | PHY_INTERFACE_MODE_RGMII_RXID
  | PHY_INTERFACE_MODE_RGMII_TXID => true
  | _ => false
  end.

Definition is_gmii (mode : phy_interface_t) : bool :=
  match mode with
  | PHY_INTERFACE_MODE_GMII => true
  | _ => false
  end.

(** Kernel objects are opaque; a handle stands for a non-null pointer. *)
Definition handle : Type := positive.

(** [struct sunxi_priv_data].  The two pointers the code tests against
    NULL are options; [tx_clk] is never tested and is set by every
    successful discovery. *)
Record sunxi_priv_data : Type := mk_priv {
  interface : phy_interface_t;
  clk_enabled : Z;
  tx_clk : handle;
  regulator : option handle;
  regmap_field : option handle
}.

Definition set_clk_enabled (v : Z) (gmac : sunxi_priv_data) : sunxi_priv_data :=
  {| interface := interface gmac;
     clk_enabled := v;
     tx_clk := tx_clk gmac;
     regulator := regulator gmac;
     regmap_field := regmap_field gmac |}.

Definition set_interface (i : phy_interface_t) (gmac : sunxi_priv_data)
  : sunxi_priv_data :=
  {| interface := i;
     clk_enabled := clk_enabled gmac;
     tx_clk := tx_clk gmac;
     regulator := regulator gmac;
     regmap_field := regmap_field gmac |}.

(** [struct reg_field] and the EMAC clock register at 0x164 of the CCU. *)
Record reg_field : Type := mk_reg_field { reg : Z; lsb : Z; msb : Z }.

Definition ccu_reg_field : reg_field :=
  {| reg := 0x164; lsb := 0; msb := 31 |}.

Definition SUN7I_GMAC_GMII_RGMII_RATE : Z := 125000000.
Definition SUN7I_GMAC_MII_RATE : Z := 25000000.
Definition SUN7I_A20_RGMII_CLK : Z := Z.lor (Z.shiftl 3 1) (Z.shiftl 1 12).
Definition SUN7I_A20_MII_CLK : Z := Z.shiftl 1 12.

(** ** The collaborators: clock, supply and register field *)

(** Every call into the clock, regulator, regmap and platform layers is
    recorded, fallible ones with the value they returned. *)
Inductive call : Type :=
| regulator_enable_call (rc : Z)
| regulator_disable_call
| clk_set_rate_call (rate rc : Z)
| clk_prepare_call (rc : Z)
| clk_enable_call (rc : Z)
| clk_disable_call
| clk_unprepare_call
| regmap_field_write_call (val : Z)
| devm_clk_get_call (id : string)
| devm_regmap_field_alloc_call (regmap : handle)
| devm_regulator_get_optional_call
| stmmac_dvr_probe_call (rc : Z)
| stmmac_remove_config_dt_call.

(** The resources this device instance was given: its transmit clock
    (whether it is prepared, whether its gate is open, its rate), the PHY
    supply, and the contents of the register behind the mode-select
    field. *)
Record world : Type := mk_world {
  clk_prepared : bool;
  clk_running : bool;
  clk_rate : Z;
  supply_on : bool;
  ccu_reg : Z;
  calls : list call
}.

Definition with_clock (p e : bool) (w : world) : world :=
  {| clk_prepared := p; clk_running := e; clk_rate := clk_rate w;
     supply_on := supply_on w; ccu_reg := ccu_reg w; calls := calls w |}.

Definition with_rate (r : Z) (w : world) : world :=
  {| clk_prepared := clk_prepared w; clk_running := clk_running w;
     clk_rate := r;
     supply_on := supply_on w; ccu_reg := ccu_reg w; calls := calls w |}.

Definition with_supply (b : bool) (w : world) : world :=
  {| clk_prepared := clk_prepared w; clk_running := clk_running w;
     clk_rate := clk_rate w;
     supply_on := b; ccu_reg := ccu_reg w; calls := calls w |}.

Definition with_ccu_reg (v : Z) (w : world) : world :=
  {| clk_prepared := clk_prepared w; clk_running := clk_running w;
     clk_rate := clk_rate w;
     supply_on := supply_on w; ccu_reg := v; calls := calls w |}.

Definition with_call (c : call) (w : world) : world :=
  {| clk_prepared := clk_prepared w; clk_running := clk_running w;
     clk_rate := clk_rate w;
     supply_on := supply_on w; ccu_reg := ccu_reg w;
     calls := calls w ++ [c] |}.

(** State monad over the world. *)
Definition M (A : Type) : Type := world -> A * world.

Definition ret {A : Type} (a : A) : M A := fun w => (a, w).

Definition bind {A B : Type} (m : M A) (k : A -> M B) : M B :=
  fun w => let (a, w') := m w in k a w'.

Definition modify (f : world -> world) : M unit := fun w => (tt, f w).

Declare Scope drv_scope.
Delimit Scope drv_scope with drv.
Notation "x <- m ;; k" := (bind m (fun x => k))
  (at level 61, m at next level, right associativity) : drv_scope.
Notation "m ;; k" := (bind m (fun _ => k))
  (at level 61, right associativity) : drv_scope.
Local Open Scope drv_scope.

(** [GENMASK(h, l)]: bits [l..h] set. *)
Definition GENMASK (h l : Z) : Z := Z.shiftl (Z.ones (h - l + 1)) l.

Definition field_mask (f : reg_field) : Z := GENMASK (msb f) (lsb f).

(** Read-modify-write of the bits of a field within its register. *)
Definition field_update (f : reg_field) (orig val : Z) : Z :=
  Z.lor (Z.land orig (Z.lnot (field_mask f)))
        (Z.land (Z.shiftl val (lsb f)) (field_mask f)).

Definition field_get (f : reg_field) (regval : Z) : Z :=
  Z.shiftr (Z.land regval (field_mask f)) (lsb f).

(** The value held by the mode-select field. *)
Definition regmap_field_read (w : world) : Z := field_get ccu_reg_field (ccu_reg w).

(** ** The hardware description seen by [probe] *)

(** What the device-tree and platform lookups return for this device.  A
    pointer-or-error result ([IS_ERR]/[PTR_ERR]) is a sum: [inl e] carries
    the negative error number, [inr h] the object. *)
Record syscon_device : Type := mk_syscon_device {
  dev_get_regmap : option handle
}.

Record syscon_node_t : Type := mk_syscon_node {
  of_find_device_by_node : option syscon_device
}.

Record device_node : Type := mk_device_node {
  of_get_phy_mode : Z + phy_interface_t;
  of_parse_phandle_syscon : option syscon_node_t
}.

Record platform_device : Type := mk_platform_device {
  of_node : device_node;
  stmmac_get_platform_resources : Z;
  stmmac_probe_config_dt : Z + handle;
  devm_kzalloc : bool;
  devm_clk_get : string -> Z + handle;
  syscon_regmap_lookup_by_phandle : Z + handle;
  devm_regmap_field_alloc : handle -> Z + handle;
  devm_regulator_get_optional : Z + handle;
  stmmac_dvr_probe : Z
}.

(** ** [sun7i_gmac_get_syscon_from_dev] *)
Definition sun7i_gmac_get_syscon_from_dev (node : device_node) : Z + handle :=
  match of_parse_phandle_syscon node with
  | None => inl (- ENODEV)
  | Some syscon_node =>
      match of_find_device_by_node syscon_node with
      | None =>
          (* platform device might not be probed yet *)
          inl (- EPROBE_DEFER)
      | Some syscon_pdev =>
          (* If no regmap is found then the other device driver is at fault *)
          match dev_get_regmap syscon_pdev with
          | None => inl (- EINVAL)
          | Some regmap => inr regmap
          end
      end
  end.

Section Driver.

(** The environment decides the outcome of each fallible collaborator
    call: [fault n] is the value returned by such a call when it is the
    [n]-th recorded call; zero lets it take effect, anything else is an
    error that leaves the resource as it was. *)
Variable fault : nat -> Z.

Definition outcome : M Z := fun w => (fault (List.length (calls w)), w).

Definition emit (c : call) : M unit := modify (with_call c).

(** Modelled from the spec: the clock control primitives of the common
    clock framework, [set_rate], [prepare], [enable], [disable] and
    [unprepare], are not part of the glue layer.  The first three may
    fail, as the environment decides; [disable] and [unprepare] return
    nothing and are safe to repeat.  Activation has two stages, each with
    its own flag: [prepare] sets up the clock, [enable] opens its gate.
    Whether an [enable] that was not preceded by a [prepare] is refused
    is left to the environment as well. *)
Definition clk_set_rate (clk : handle) (rate : Z) : M Z :=
  rc <- outcome ;;
  emit (clk_set_rate_call rate rc) ;;
  if rc =? 0 then modify (with_rate rate) ;; ret 0 else ret rc.

Definition clk_prepare (clk : handle) : M Z :=
  rc <- outcome ;;
  emit (clk_prepare_call rc) ;;
  if rc =? 0
  then modify (fun w => with_clock true (clk_running w) w) ;; ret 0
  else ret rc.

Definition clk_enable (clk : handle) : M Z :=
  rc <- outcome ;;
  emit (clk_enable_call rc) ;;
  if rc =? 0
  then modify (fun w => with_clock (clk_prepared w) true w) ;; ret 0
  else ret rc.

Definition clk_disable (clk : handle) : M unit :=
  emit clk_disable_call ;;
  modify (fun w => with_clock (clk_prepared w) false w).

Definition clk_unprepare (clk : handle) : M unit :=
  emit clk_unprepare_call ;;
  modify (fun w => with_clock false (clk_running w) w).

(** Modelled from the spec: prepare and enable combined into one step
    (the inline helper of [linux/clk.h]); a failed enable undoes the
    prepare. *)
Definition clk_prepare_enable (clk : handle) : M Z :=
  rc <- clk_prepare clk ;;
  if negb (rc =? 0) then ret rc else
  rc <- clk_enable clk ;;
  (if negb (rc =? 0) then clk_unprepare clk else ret tt) ;;
  ret rc.

(** Modelled from the spec: the regulator primitives.  Enabling may
    fail; the result of disabling is never looked at by the glue layer
    and the spec names no failure for it. *)
Definition regulator_enable (r : handle) : M Z :=
  rc <- outcome ;;
  emit (regulator_enable_call rc) ;;
  if rc =? 0 then modify (with_supply true) ;; ret 0 else ret rc.

Definition regulator_disable (r : handle) : M unit :=
  emit regulator_disable_call ;;
  modify (with_supply false).

(** Modelled from the spec: the register-field write, treated as
    non-failing.  The field bound by the driver is [ccu_reg_field]. *)
Definition regmap_field_write (f : handle) (val : Z) : M unit :=
  emit (regmap_field_write_call val) ;;
  modify (fun w => with_ccu_reg (field_update ccu_reg_field (ccu_reg w) val) w).

(** ** [sun7i_gmac_init] *)
Definition sun7i_gmac_init (gmac : sunxi_priv_data) : M (Z * sunxi_priv_data) :=
  let configure : M (Z * sunxi_priv_data) :=
    match regmap_field gmac with
    | Some field =>
        if phy_interface_mode_is_rgmii (interface gmac) then
          regmap_field_write field SUN7I_A20_RGMII_CLK ;;
          rc <- clk_prepare_enable (tx_clk gmac) ;;
          ret (rc, gmac)
        else
          regmap_field_write field SUN7I_A20_MII_CLK ;;
          rc <- clk_enable (tx_clk gmac) ;;
          ret (rc, gmac)
    | None =>
        (* Legacy devicetree support *)
        if phy_interface_mode_is_rgmii (interface gmac) then
          clk_set_rate (tx_clk gmac) SUN7I_GMAC_GMII_RGMII_RATE ;;
          clk_prepare_enable (tx_clk gmac) ;;
          ret (0, set_clk_enabled 1 gmac)
        else
          clk_set_rate (tx_clk gmac) SUN7I_GMAC_MII_RATE ;;
          rc <- clk_prepare (tx_clk gmac) ;;
          if negb (rc =? 0) then ret (rc, gmac) else ret (0, gmac)
    end in
  match regulator gmac with
  | Some r =>
      rc <- regulator_enable r ;;
      if negb (rc =? 0) then ret (rc, gmac) else configure
  | None => configure
  end.

(** ** [sun7i_gmac_exit] *)
Definition sun7i_gmac_exit (gmac : sunxi_priv_data) : M sunxi_priv_data :=
  gmac' <- match regmap_field gmac with
           | Some field =>
               regmap_field_write field 0 ;;
               clk_disable (tx_clk gmac) ;;
               ret gmac
           | None =>
               (* Legacy devicetree support *)
               if negb (clk_enabled gmac =? 0) then
                 clk_disable (tx_clk gmac) ;;
                 ret (set_clk_enabled 0 gmac)
               else ret gmac
           end ;;
  clk_unprepare (tx_clk gmac') ;;
  match regulator gmac' with
  | Some r => regulator_disable r
  | None => ret tt
  end ;;
  ret gmac'.

(** ** [sun7i_fix_speed] *)
Definition sun7i_fix_speed (gmac : sunxi_priv_data) (speed : Z) : M sunxi_priv_data :=
  match regmap_field gmac with
  | Some field =>
      clk_disable (tx_clk gmac) ;;
      clk_unprepare (tx_clk gmac) ;;
      (if speed =? 1000
       then regmap_field_write field SUN7I_A20_RGMII_CLK
       else regmap_field_write field SUN7I_A20_MII_CLK) ;;
      clk_prepare_enable (tx_clk gmac) ;;
      ret gmac
  | None =>
      (* Legacy devicetree support: only GMII mode requires us to
         reconfigure the clock lines *)
      if negb (is_gmii (interface gmac)) then ret gmac else
      gmac' <- (if negb (clk_enabled gmac =? 0) then
                  clk_disable (tx_clk gmac) ;;
                  ret (set_clk_enabled 0 gmac)
                else ret gmac) ;;
      clk_unprepare (tx_clk gmac') ;;
      if speed =? 1000 then
        clk_set_rate (tx_clk gmac') SUN7I_GMAC_GMII_RGMII_RATE ;;
        clk_prepare_enable (tx_clk gmac') ;;
        ret (set_clk_enabled 1 gmac')
      else
        clk_set_rate (tx_clk gmac') SUN7I_GMAC_MII_RATE ;;
        clk_prepare (tx_clk gmac') ;;
        ret gmac'
  end.

(** ** [sun7i_gmac_probe] *)

Definition err_remove_config_dt {A : Type} (rc : Z) : M (Z + A) :=
  emit stmmac_remove_config_dt_call ;; ret (inl rc).

(** Lines 184-251 of [sun7i_gmac_probe]: everything up to the point where
    the private data is complete.  The two returns that precede the
    allocation leave directly; every later failure goes through
    [err_remove_config_dt]. *)
Definition sun7i_gmac_discover (pdev : platform_device) : M (Z + sunxi_priv_data) :=
  let rc := stmmac_get_platform_resources pdev in
  if negb (rc =? 0) then ret (inl rc) else
  match stmmac_probe_config_dt pdev with
  | inl e => ret (inl e)
  | inr plat_dat =>
  if negb (devm_kzalloc pdev) then err_remove_config_dt (- ENOMEM) else
  let '(rc, mode) :=
    match of_get_phy_mode (of_node pdev) with
    | inl e => (e, PHY_INTERFACE_MODE_NA)
    | inr m => (0, m)
    end in
  if negb (rc =? 0) && negb (rc =? - ENODEV) then err_remove_config_dt rc else
  (* Optional regulator for PHY *)
  let get_regulator (clk : handle) (field : option handle)
      : M (Z + sunxi_priv_data) :=
    emit devm_regulator_get_optional_call ;;
    match devm_regulator_get_optional pdev with
    | inl e =>
        if e =? - EPROBE_DEFER then err_remove_config_dt (- EPROBE_DEFER)
        else ret (inr (mk_priv mode 0 clk None field))
    | inr r => ret (inr (mk_priv mode 0 clk (Some r) field))
    end in
  (* Attempt to fetch syscon node... *)
  match of_parse_phandle_syscon (of_node pdev) with
  | Some syscon_node =>
      emit (devm_clk_get_call "stmmaceth"%string) ;;
      match devm_clk_get pdev "stmmaceth"%string with
      | inl e => err_remove_config_dt e
      | inr clk =>
          let regmap :=
            match sun7i_gmac_get_syscon_from_dev (of_node pdev) with
            | inl _ => syscon_regmap_lookup_by_phandle pdev
            | inr r => inr r
            end in
          match regmap with
          | inl e => err_remove_config_dt e
          | inr regmap =>
              emit (devm_regmap_field_alloc_call regmap) ;;
              match devm_regmap_field_alloc pdev regmap with
              | inl e => err_remove_config_dt e
              | inr field => get_regulator clk (Some field)
              end
          end
      end
  | None =>
      (* ...or fall back to legacy clock setup *)
      emit (devm_clk_get_call "allwinner_gmac_tx"%string) ;;
      match devm_clk_get pdev "allwinner_gmac_tx"%string with
      | inl e => err_remove_config_dt e
      | inr clk => get_regulator clk None
      end
  end
  end.

(** The whole of [sun7i_gmac_probe]: discovery, then lines 264-279.  The
    result is the return value and, on success, the private data left
    with the MAC framework. *)
Definition sun7i_gmac_probe (pdev : platform_device) : M (Z * option sunxi_priv_data) :=
  d <- sun7i_gmac_discover pdev ;;
  match d with
  | inl rc => ret (rc, None)
  | inr gmac =>
      r <- sun7i_gmac_init gmac ;;
      let '(rc, gmac) := r in
      if negb (rc =? 0) then
        emit stmmac_remove_config_dt_call ;; ret (rc, None)
      else
        let rc := stmmac_dvr_probe pdev in
        emit (stmmac_dvr_probe_call rc) ;;
        if negb (rc =? 0) then
          (* err_gmac_exit *)
          sun7i_gmac_exit gmac ;;
          emit stmmac_remove_config_dt_call ;;
          ret (rc, None)
        else ret (0, Some gmac)
  end.

(** ** Life cycle

    After a successful probe the MAC framework calls [fix_speed] any
    number of times and [exit] once. *)
Fixpoint fix_speeds (gmac : sunxi_priv_data) (speeds : list Z) : M sunxi_priv_data :=
  match speeds with
  | [] => ret gmac
  | speed :: rest =>
      gmac' <- sun7i_fix_speed gmac speed ;;
      fix_speeds gmac' rest
  end.

Inductive operation : Type :=
| op_init
| op_fix_speed (speed : Z)
| op_exit.

Definition run_operation (gmac : sunxi_priv_data) (o : operation) : M sunxi_priv_data :=
  match o with
  | op_init => r <- sun7i_gmac_init gmac ;; ret (snd r)
  | op_fix_speed speed => sun7i_fix_speed gmac speed
  | op_exit => sun7i_gmac_exit gmac
  end.

Fixpoint run_operations (gmac : sunxi_priv_data) (os : list operation) : M sunxi_priv_data :=
  match os with
  | [] => ret gmac
  | o :: rest =>
      gmac' <- run_operation gmac o ;;
      run_operations gmac' rest
  end.

End Driver.

(** ** Observations used by the properties *)

(** The calls recorded between two worlds. *)
Definition issued (w w' : world) : list call :=
  skipn (List.length (calls w)) (calls w').

(** A recorded call is fine unless it is a fallible one that returned an
    error. *)
Definition call_ok (c : call) : bool :=
  match c with
  | regulator_enable_call rc
  | clk_set_rate_call _ rc
  | clk_prepare_call rc
  | clk_enable_call rc => rc =? 0
  | _ => true
  end.

Definition all_ok (l : list call) : bool := forallb call_ok l.

Definition failed_regulator_enable (l : list call) : bool :=
  existsb (fun c => match c with
                    | regulator_enable_call rc => negb (rc =? 0)
                    | _ => false end) l.

Definition failed_set_rate (l : list call) : bool :=
  existsb (fun c => match c with
                    | clk_set_rate_call _ rc => negb (rc =? 0)
                    | _ => false end) l.

Definition failed_prepare (l : list call) : bool :=
  existsb (fun c => match c with
                    | clk_prepare_call rc => negb (rc =? 0)
                    | _ => false end) l.

Definition failed_enable (l : list call) : bool :=
  existsb (fun c => match c with
                    | clk_enable_call rc => negb (rc =? 0)
                    | _ => false end) l.

(** The calls that can fail, with what they returned. *)
Definition is_fallible (c : call) : bool :=
  match c with
  | regulator_enable_call _
  | clk_set_rate_call _ _
  | clk_prepare_call _
  | clk_enable_call _ => true
  | _ => false
  end.

Definition fallible_calls (l : list call) : list call := filter is_fallible l.

Definition is_clk_prepare (c : call) : bool :=
  match c with clk_prepare_call _ => true | _ => false end.

Definition is_regulator_disable (c : call) : bool :=
  match c with regulator_disable_call => true | _ => false end.

(** The clock handle has not been prepared or enabled by anyone yet. *)
Definition clk_unused (w : world) : Prop :=
  clk_prepared w = false /\ clk_running w = false.

(** What a caller can observe of the device: the mode-select field, the
    clock, the supply and the private data. *)
Record observation : Type := mk_observation {
  obs_field : Z;
  obs_rate : Z;
  obs_prepared : bool;
  obs_running : bool;
  obs_supply : bool;
  obs_priv : sunxi_priv_data
}.

Definition observe (gmac : sunxi_priv_data) (w : world) : observation :=
  {| obs_field := regmap_field_read w;
     obs_rate := clk_rate w;
     obs_prepared := clk_prepared w;
     obs_running := clk_running w;
     obs_supply := supply_on w;
     obs_priv := gmac |}.

(** Discovery, a successful [init], then any number of link-speed
    events. *)
Definition bring_up (fault : nat -> Z) (pdev : platform_device)
    (speeds : list Z) : M (option sunxi_priv_data) :=
  d <- sun7i_gmac_discover pdev ;;
  match d with
  | inr gmac =>
      r <- sun7i_gmac_init fault gmac ;;
      if fst r =? 0
      then gmac' <- fix_speeds fault (snd r) speeds ;; ret (Some gmac')
      else ret None
  | inl _ => ret None
  end.

(** A state reached from an unused clock by discovery, a successful
    [init] and link-speed events. *)
Definition post_init (fault : nat -> Z) (gmac : sunxi_priv_data) (w : world) : Prop :=
  exists pdev speeds w0,
    clk_unused w0 /\ bring_up fault pdev speeds w0 = (Some gmac, w).

(** The step the spec words for the Modern path of [init]: write the
    value chosen by the interface mode, then prepare and enable the clock
    as one step and return its result. *)
Definition spec_init_modern (fault : nat -> Z) (gmac : sunxi_priv_data)
    (field : handle) : M (Z * sunxi_priv_data) :=
  regmap_field_write field
    (if phy_interface_mode_is_rgmii (interface gmac)
     then SUN7I_A20_RGMII_CLK else SUN7I_A20_MII_CLK) ;;
  rc <- clk_prepare_enable fault (tx_clk gmac) ;;
  ret (rc, gmac).

(** On the Legacy path the flag is set whenever the clock runs. *)
Definition flag_covers_clock (gmac : sunxi_priv_data) (w : world) : Prop :=
  regmap_field gmac = None -> clk_running w = true -> clk_enabled gmac <> 0.

(** The lookups that precede the syscon resolution in discovery all
    succeeded. *)
Definition reaches_syscon (pdev : platform_device) : Prop :=
  stmmac_get_platform_resources pdev = 0 /\
  (exists plat_dat, stmmac_probe_config_dt pdev = inr plat_dat) /\
  devm_kzalloc pdev = true /\
  (of_get_phy_mode (of_node pdev) = inl (- ENODEV) \/
   exists mode, of_get_phy_mode (of_node pdev) = inr mode) /\
  (exists clk, devm_clk_get pdev "stmmaceth"%string = inr clk).

(** ** Concrete devices and environments *)

Definition boot : world := mk_world false false 0 false 0 [].

Definition no_fault : nat -> Z := fun _ => 0.

(** The call with the given index fails with [-EINVAL]; all others work. *)
Definition fault_at (k : nat) : nat -> Z :=
  fun n => if Nat.eqb n k then - EINVAL else 0.

Definition a_node (mode : phy_interface_t) (syscon : option syscon_node_t)
  : device_node :=
  {| of_get_phy_mode := inr mode; of_parse_phandle_syscon := syscon |}.

(** A board description: the interface mode, whether a syscon phandle is
    there (and what it leads to), what the phandle-based syscon lookup
    returns, and whether a PHY regulator exists. *)
Definition a_board (mode : phy_interface_t) (syscon : option syscon_node_t)
    (lookup : Z + handle) (phy_supply : Z + handle) : platform_device :=
  {| of_node := a_node mode syscon;
     stmmac_get_platform_resources := 0;
     stmmac_probe_config_dt := inr 1%positive;
     devm_kzalloc := true;
     devm_clk_get := fun _ => inr 2%positive;
     syscon_regmap_lookup_by_phandle := lookup;
     devm_regmap_field_alloc := fun _ => inr 4%positive;
     devm_regulator_get_optional := phy_supply;
     stmmac_dvr_probe := 0 |}.

Definition syscon_bound : syscon_node_t :=
  {| of_find_device_by_node := Some {| dev_get_regmap := Some 3%positive |} |}.

Definition syscon_unbound : syscon_node_t :=
  {| of_find_device_by_node := None |}.

Definition modern_board (mode : phy_interface_t) (phy_supply : Z + handle)
  : platform_device :=
  a_board mode (Some syscon_bound) (inl (- ENODEV)) phy_supply.

Definition legacy_board (mode : phy_interface_t) (phy_supply : Z + handle)
  : platform_device :=
  a_board mode None (inl (- ENODEV)) phy_supply.

Definition no_supply : Z + handle := inl (- ENODEV).
Definition a_supply : Z + handle := inr 5%positive.

(** ** Variations of a hardware description *)

(** The same device with another answer from the PHY regulator lookup. *)
Definition with_regulator_lookup (r : Z + handle) (pdev : platform_device)
  : platform_device :=
  {| of_node := of_node pdev;
     stmmac_get_platform_resources := stmmac_get_platform_resources pdev;
     stmmac_probe_config_dt := stmmac_probe_config_dt pdev;
     devm_kzalloc := devm_kzalloc pdev;
     devm_clk_get := devm_clk_get pdev;
     syscon_regmap_lookup_by_phandle := syscon_regmap_lookup_by_phandle pdev;
     devm_regmap_field_alloc := devm_regmap_field_alloc pdev;
     devm_regulator_get_optional := r;
     stmmac_dvr_probe := stmmac_dvr_probe pdev |}.

(** The same device with another answer from the phy-mode lookup. *)
Definition with_phy_mode (m : Z + phy_interface_t) (pdev : platform_device)
  : platform_device :=
  {| of_node := {| of_get_phy_mode := m;
                   of_parse_phandle_syscon :=
                     of_parse_phandle_syscon (of_node pdev) |};
     stmmac_get_platform_resources := stmmac_get_platform_resources pdev;
     stmmac_probe_config_dt := stmmac_probe_config_dt pdev;
     devm_kzalloc := devm_kzalloc pdev;
     devm_clk_get := devm_clk_get pdev;
     syscon_regmap_lookup_by_phandle := syscon_regmap_lookup_by_phandle pdev;
     devm_regmap_field_alloc := devm_regmap_field_alloc pdev;
     devm_regulator_get_optional := devm_regulator_get_optional pdev;
     stmmac_dvr_probe := stmmac_dvr_probe pdev |}.

(** The same device with another answer from the phandle-based syscon
    lookup. *)
Definition with_syscon_lookup (r : Z + handle) (pdev : platform_device)
  : platform_device :=
  {| of_node := of_node pdev;
     stmmac_get_platform_resources := stmmac_get_platform_resources pdev;
     stmmac_probe_config_dt := stmmac_probe_config_dt pdev;
     devm_kzalloc := devm_kzalloc pdev;
     devm_clk_get := devm_clk_get pdev;
     syscon_regmap_lookup_by_phandle := r;
     devm_regmap_field_alloc := devm_regmap_field_alloc pdev;
     devm_regulator_get_optional := devm_regulator_get_optional pdev;
     stmmac_dvr_probe := stmmac_dvr_probe pdev |}.

Definition set_regulator (r : option handle) (gmac : sunxi_priv_data)
  : sunxi_priv_data :=
  {| interface := interface gmac;
     clk_enabled := clk_enabled gmac;
     tx_clk := tx_clk gmac;
     regulator := r;
     regmap_field := regmap_field gmac |}.

(** An error pointer is never the null pointer: the error carried by a
    failed lookup is not zero. *)
Definition is_error (r : Z + handle) : Prop :=
  match r with
  | inl e => e <> 0
  | inr _ => True
  end.

Definition errors_nonzero (pdev : platform_device) : Prop :=
  is_error (stmmac_probe_config_dt pdev) /\
  (forall id, is_error (devm_clk_get pdev id)) /\
  is_error (syscon_regmap_lookup_by_phandle pdev) /\
  (forall regmap, is_error (devm_regmap_field_alloc pdev regmap)).

(** The calls discovery may make: requests for device-managed objects and
    the release of the platform configuration. *)
Definition is_lookup_call (c : call) : bool :=
  match c with
  | devm_clk_get_call _
  | devm_regmap_field_alloc_call _
  | devm_regulator_get_optional_call
  | stmmac_remove_config_dt_call => true
  | _ => false
  end.

Definition is_remove_config_dt (c : call) : bool :=
  match c with stmmac_remove_config_dt_call => true | _ => false end.

Definition is_set_rate (c : call) : bool :=
  match c with clk_set_rate_call _ _ => true | _ => false end.

Definition is_field_write (c : call) : bool :=
  match c with regmap_field_write_call _ => true | _ => false end.

Definition is_regulator_call (c : call) : bool :=
  match c with
  | regulator_enable_call _ | regulator_disable_call => true
  | _ => false
  end.

(** Two interface modes the driver cannot tell apart: it only ever asks
    whether a mode is in the RGMII family and whether it is GMII. *)
Definition same_class (m m' : phy_interface_t) : Prop :=
  phy_interface_mode_is_rgmii m = phy_interface_mode_is_rgmii m' /\
  is_gmii m = is_gmii m'.

(** What a [fix_speed] whose clock calls all succeed leaves to be
    observed, as a function of the speed and of what it found. *)
Definition settled (gmac : sunxi_priv_data) (speed : Z) (w : world)
  : observation :=
  match regmap_field gmac with
  | Some _ =>
      {| obs_field := if speed =? 1000 then SUN7I_A20_RGMII_CLK
                      else SUN7I_A20_MII_CLK;
         obs_rate := clk_rate w;
         obs_prepared := true;
         obs_running := true;
         obs_supply := supply_on w;
         obs_priv := gmac |}
  | None =>
      if is_gmii (interface gmac) then
        {| obs_field := regmap_field_read w;
           obs_rate := if speed =? 1000 then SUN7I_GMAC_GMII_RGMII_RATE
                       else SUN7I_GMAC_MII_RATE;
           obs_prepared := true;
           obs_running := speed =? 1000;
           obs_supply := supply_on w;
           obs_priv := set_clk_enabled (if speed =? 1000 then 1 else 0) gmac |}
      else observe gmac w
  end.

(** * Properties *)

(** ** Bookkeeping lemmas *)

Lemma skipn_app_length {A : Type} (l r : list A) :
  skipn (List.length l) (l ++ r) = r.
Proof.
  induction l as [|a l IH]; simpl; auto.
Qed.

Lemma issued_app (p e s : bool) (r v : Z) (l extra : list call)
    (p' e' s' : bool) (r' v' : Z) :
  issued (mk_world p e r s v l) (mk_world p' e' r' s' v' (l ++ extra)) = extra.
Proof.
  unfold issued; simpl. apply skipn_app_length.
Qed.

Lemma issued_app_app (p e s : bool) (r v : Z) (l e1 e12 : list call)
    (p' e' s' : bool) (r' v' : Z) :
  issued (mk_world p e r s v (l ++ e1)) (mk_world p' e' r' s' v' (l ++ e12))
  = skipn (List.length e1) e12.
Proof.
  unfold issued; simpl. induction l as [|a l IH]; simpl; auto.
Qed.

Lemma field_mask_ccu : field_mask ccu_reg_field = Z.ones 32.
Proof. reflexivity. Qed.

(** Reading the mode-select field after a write gives back the low 32
    bits of the value written, whatever the register held before. *)
Lemma field_get_update (orig val : Z) :
  field_get ccu_reg_field (field_update ccu_reg_field orig val)
  = Z.land val (Z.ones 32).
Proof.
  unfold field_get, field_update. rewrite field_mask_ccu.
  change (lsb ccu_reg_field) with 0.
  rewrite Z.shiftl_0_r, Z.shiftr_0_r.
  rewrite Z.land_lor_distr_l.
  rewrite <- (Z.land_assoc orig), (Z.land_comm (Z.lnot _)), Z.land_lnot_diag.
  rewrite Z.land_0_r, Z.lor_0_l.
  rewrite <- Z.land_assoc, Z.land_diag. reflexivity.
Qed.

Lemma field_get_update_rgmii (orig : Z) :
  field_get ccu_reg_field (field_update ccu_reg_field orig SUN7I_A20_RGMII_CLK)
  = SUN7I_A20_RGMII_CLK.
Proof. rewrite field_get_update. reflexivity. Qed.

Lemma field_get_update_mii (orig : Z) :
  field_get ccu_reg_field (field_update ccu_reg_field orig SUN7I_A20_MII_CLK)
  = SUN7I_A20_MII_CLK.
Proof. rewrite field_get_update. reflexivity. Qed.

Lemma field_get_update_zero (orig : Z) :
  field_get ccu_reg_field (field_update ccu_reg_field orig 0) = 0.
Proof. rewrite field_get_update. reflexivity. Qed.

(** Symbolic execution: unfold the monad and the primitives, then split on
    every test that remains. *)
Ltac unfold_driver :=
  cbv beta iota zeta delta
    [sun7i_gmac_init sun7i_gmac_exit sun7i_fix_speed spec_init_modern
     clk_prepare_enable clk_prepare clk_enable clk_disable clk_unprepare
     clk_set_rate regulator_enable regulator_disable regmap_field_write
     outcome emit modify bind ret
     with_call with_clock with_rate with_supply with_ccu_reg
     set_clk_enabled set_interface fst snd
     calls clk_prepared clk_running clk_rate supply_on ccu_reg
     interface clk_enabled tx_clk regulator regmap_field].

Ltac simpl_tests :=
  cbn [negb andb orb implb app existsb forallb call_ok is_clk_prepare
       is_regulator_disable all_ok failed_regulator_enable failed_set_rate
       failed_prepare failed_enable fst snd
       is_gmii phy_interface_mode_is_rgmii].

(** One step: reduce; or name the value the environment returned to the
    next call (innermost first); or split on a test of a named value. *)
Ltac step_driver fault :=
  first
    [ progress unfold_driver
    | progress (change (0 =? 0) with true)
    | progress simpl_tests
    | match goal with
      | |- context [fault ?n] =>
          match n with
          | context [fault _] => fail 1
          | _ => let rc := fresh "rc" in generalize (fault n); intro rc
          end
      end
    | match goal with
      | H : ?x <> ?y |- context [?x =? ?y] =>
          rewrite (proj2 (Z.eqb_neq x y) H)
      end
    | match goal with
      | |- context [?x =? ?y] =>
          is_var x; destruct (Z.eqb_spec x y); [subst x|]
      end
    | match goal with
      | |- context [if ?b then _ else _] => destruct b eqn:?
      end ].

Ltac tidy_calls :=
  repeat rewrite <- app_assoc; cbn [app];
  try rewrite issued_app.

Ltac run_driver fault :=
  repeat step_driver fault; tidy_calls; repeat step_driver fault.

Ltac unfold_probe :=
  cbv beta iota zeta delta
    [sun7i_gmac_probe sun7i_gmac_discover sun7i_gmac_get_syscon_from_dev
     err_remove_config_dt
     of_node stmmac_get_platform_resources stmmac_probe_config_dt
     devm_kzalloc devm_clk_get syscon_regmap_lookup_by_phandle
     devm_regmap_field_alloc devm_regulator_get_optional stmmac_dvr_probe
     of_get_phy_mode of_parse_phandle_syscon of_find_device_by_node
     dev_get_regmap].

Ltac split_matches :=
  repeat (cbv beta iota zeta;
          match goal with
          | |- context [match ?x with _ => _ end] => destruct x eqn:?
          end).

(** ** Discovery *)

(** Discovery only looks things up: the clock, the supply and the
    register are as they were. *)
Lemma discover_world (pdev : platform_device) (w0 w : world)
    (r : Z + sunxi_priv_data) :
  sun7i_gmac_discover pdev w0 = (r, w) ->
  clk_prepared w = clk_prepared w0 /\ clk_running w = clk_running w0 /\
  clk_rate w = clk_rate w0 /\ supply_on w = supply_on w0 /\
  ccu_reg w = ccu_reg w0.
Proof.
  destruct pdev as [[mode syscon] res cfg kz getclk lookup falloc regul dvr].
  destruct w0 as [p e rate s v l].
  match goal with |- _ -> ?C => set (post := C) end.
  unfold_probe. unfold_driver.
  split_matches; intros [= <- <-]; subst post; repeat split; reflexivity.
Qed.

(** The private data handed over by discovery: the flag is clear, and the
    register field is there exactly when the syscon reference is. *)
Lemma discover_priv (pdev : platform_device) (w0 w : world)
    (gmac : sunxi_priv_data) :
  sun7i_gmac_discover pdev w0 = (inr gmac, w) ->
  clk_enabled gmac = 0 /\
  (regmap_field gmac = None <-> of_parse_phandle_syscon (of_node pdev) = None).
Proof.
  destruct pdev as [[mode syscon] res cfg kz getclk lookup falloc regul dvr].
  destruct w0 as [p e rate s v l].
  match goal with |- _ -> ?C => set (post := C) end.
  unfold_probe. unfold_driver.
  split_matches; intros [= <- <-]; subst post; cbn;
    repeat split; intros; congruence.
Qed.

Lemma discover_unused (pdev : platform_device) (w0 w : world)
    (r : Z + sunxi_priv_data) :
  clk_unused w0 -> sun7i_gmac_discover pdev w0 = (r, w) -> clk_unused w.
Proof.
  intros [Hp He] H. apply discover_world in H.
  destruct H as (H1 & H2 & _). split; congruence.
Qed.

(** ** [init] *)

(** On the Modern path with an RGMII-family mode, [init] past the
    regulator is the step the spec words. *)
Lemma init_modern_rgmii_as_spec (fault : nat -> Z) (gmac : sunxi_priv_data)
    (field : handle) (w : world) :
  regmap_field gmac = Some field ->
  regulator gmac = None ->
  phy_interface_mode_is_rgmii (interface gmac) = true ->
  sun7i_gmac_init fault gmac w = spec_init_modern fault gmac field w.
Proof.
  destruct gmac as [i flag clk r f], w as [p e rate s v l]; cbn.
  intros -> -> Hi. unfold sun7i_gmac_init, spec_init_modern; cbn.
  rewrite Hi. reflexivity.
Qed.

(** On the Modern path the mode-select field is written before the clock
    is touched: once past the regulator, it holds the RGMII value for an
    RGMII-family mode and the MII value otherwise. *)
Lemma init_modern_field (fault : nat -> Z) (gmac : sunxi_priv_data)
    (field : handle) (w : world) :
  regmap_field gmac = Some field ->
  let '((rc, gmac'), w') := sun7i_gmac_init fault gmac w in
  failed_regulator_enable (issued w w') = false ->
  gmac' = gmac /\
  regmap_field_read w' =
    if phy_interface_mode_is_rgmii (interface gmac)
    then SUN7I_A20_RGMII_CLK else SUN7I_A20_MII_CLK.
Proof.
  destruct gmac as [i flag clk r f], w as [p e rate s v l].
  cbn [regmap_field interface]. intros ->. unfold regmap_field_read.
  destruct r; run_driver fault; intros; try discriminate;
    rewrite ?field_get_update_rgmii, ?field_get_update_mii;
    split; reflexivity.
Qed.

(** For a mode outside the RGMII family the Modern path of [init] makes
    no prepare call at all, whatever the calls it does make return, so
    the clock is exactly as prepared after [init] as it was before. *)
Lemma init_modern_other_never_prepares (fault : nat -> Z)
    (gmac : sunxi_priv_data) (field : handle) (w : world) :
  regmap_field gmac = Some field ->
  phy_interface_mode_is_rgmii (interface gmac) = false ->
  let '((_, _), w') := sun7i_gmac_init fault gmac w in
  existsb is_clk_prepare (issued w w') = false /\
  clk_prepared w' = clk_prepared w.
Proof.
  destruct gmac as [i flag clk r f], w as [p e rate s v l].
  cbn [regmap_field interface]. intros -> Hi.
  destruct r; run_driver fault; try congruence; split; reflexivity.
Qed.

(** C1 (the code departs from the claim): on the Modern path with a mode
    outside the RGMII family, [init] writes the MII value and then calls
    the bare [clk_enable]; no prepare call is made and the clock is left
    running but unprepared, where the step the spec words prepares and
    enables it. *)
Theorem init_modern_mii_bare_enable :
  let pdev := modern_board PHY_INTERFACE_MODE_MII no_supply in
  let '(d, w) := sun7i_gmac_discover pdev boot in
  match d with
  | inr gmac =>
      match regmap_field gmac with
      | Some field =>
          phy_interface_mode_is_rgmii (interface gmac) = false /\
          (let '((rc, _), w') := sun7i_gmac_init no_fault gmac w in
           rc = 0 /\
           issued w w' = [regmap_field_write_call SUN7I_A20_MII_CLK;
                          clk_enable_call 0] /\
           clk_prepared w' = false /\ clk_running w' = true) /\
          (let '((rc, _), w') := spec_init_modern no_fault gmac field w in
           rc = 0 /\
           issued w w' = [regmap_field_write_call SUN7I_A20_MII_CLK;
                          clk_prepare_call 0; clk_enable_call 0] /\
           clk_prepared w' = true /\ clk_running w' = true)
      | None => False
      end
  | inl _ => False
  end.
Proof.
  vm_compute. repeat split; reflexivity.
Qed.

(** C2 (as amended): on the Legacy path, starting from the state
    discovery hands over, [init] fails exactly when the regulator enable
    fails or, for a mode outside the RGMII family, the clock prepare
    fails.  When it succeeds: for an RGMII-family mode the flag is 1, the
    rate is 125 MHz if the rate call did not fail, and the clock is
    prepared and running if neither the prepare nor the enable failed
    (the results of these calls are dropped); otherwise the flag is 0,
    the clock is prepared but not running, and the rate is 25 MHz if the
    rate call did not fail. *)
Theorem init_legacy_outcome (fault : nat -> Z) (pdev : platform_device)
    (w0 w : world) (gmac : sunxi_priv_data) :
  clk_unused w0 ->
  sun7i_gmac_discover pdev w0 = (inr gmac, w) ->
  regmap_field gmac = None ->
  let '((rc, gmac'), w') := sun7i_gmac_init fault gmac w in
  let l := issued w w' in
  (rc =? 0) =
    negb (failed_regulator_enable l
          || negb (phy_interface_mode_is_rgmii (interface gmac))
             && failed_prepare l) /\
  (rc = 0 ->
   if phy_interface_mode_is_rgmii (interface gmac) then
     clk_enabled gmac' = 1 /\
     (failed_set_rate l = false ->
      clk_rate w' = SUN7I_GMAC_GMII_RGMII_RATE) /\
     (failed_prepare l = false -> failed_enable l = false ->
      clk_prepared w' = true /\ clk_running w' = true)
   else
     clk_enabled gmac' = 0 /\
     clk_prepared w' = true /\ clk_running w' = false /\
     (failed_set_rate l = false -> clk_rate w' = SUN7I_GMAC_MII_RATE)).
Proof.
  intros Hw0 Hd Hf.
  destruct (discover_priv _ _ _ _ Hd) as [Hflag _].
  destruct (discover_unused _ _ _ _ Hw0 Hd) as [Hp He].
  clear Hd Hw0.
  destruct gmac as [i flag clk r f], w as [p e rate s v l].
  cbn [regmap_field clk_enabled clk_prepared clk_running interface] in *.
  subst f flag p e.
  destruct r; run_driver fault;
    (split; [reflexivity|]); intros; try congruence;
    repeat split; intros; try reflexivity; try discriminate.
Qed.

Lemma init_legacy_outcome_witness :
  clk_unused boot /\
  (let pdev := legacy_board PHY_INTERFACE_MODE_RGMII a_supply in
   let '(d, w) := sun7i_gmac_discover pdev boot in
   match d with
   | inr gmac =>
       regmap_field gmac = None /\
       (let '((rc, gmac'), w') := sun7i_gmac_init no_fault gmac w in
        rc = 0 /\ clk_enabled gmac' = 1 /\
        clk_rate w' = SUN7I_GMAC_GMII_RGMII_RATE /\
        clk_prepared w' = true /\ clk_running w' = true)
   | inl _ => False
   end) /\
  (let pdev := legacy_board PHY_INTERFACE_MODE_MII no_supply in
   let '(d, w) := sun7i_gmac_discover pdev boot in
   match d with
   | inr gmac =>
       regmap_field gmac = None /\
       (let '((rc, gmac'), w') := sun7i_gmac_init no_fault gmac w in
        rc = 0 /\ clk_enabled gmac' = 0 /\
        clk_rate w' = SUN7I_GMAC_MII_RATE /\
        clk_prepared w' = true /\ clk_running w' = false)
   | inl _ => False
   end).
Proof.
  assert (H0 : clk_unused boot) by (split; reflexivity).
  pose proof (init_legacy_outcome no_fault
                (legacy_board PHY_INTERFACE_MODE_RGMII a_supply)
                boot _ _ H0 eq_refl eq_refl) as Hr.
  pose proof (init_legacy_outcome no_fault
                (legacy_board PHY_INTERFACE_MODE_MII no_supply)
                boot _ _ H0 eq_refl eq_refl) as Hm.
  split; [exact H0|].
  vm_compute in Hr, Hm. vm_compute.
  destruct Hr as [_ Hr]. destruct (Hr eq_refl) as (R1 & R2 & R3).
  pose proof (R2 eq_refl) as R4. destruct (R3 eq_refl eq_refl) as [R5 R6].
  destruct Hm as [_ Hm]. destruct (Hm eq_refl) as (M1 & M2 & M3 & M4).
  pose proof (M4 eq_refl) as M5.
  repeat split; assumption.
Defined.

(** C2 (as stated, refuted): an RGMII-family Legacy device whose rate
    call fails; [init] drops the error, reports success and the rate is
    not 125 MHz. *)
Lemma init_legacy_rgmii_set_rate_fault :
  let pdev := legacy_board PHY_INTERFACE_MODE_RGMII no_supply in
  let '(d, w) := sun7i_gmac_discover pdev boot in
  match d with
  | inr gmac =>
      regmap_field gmac = None /\
      phy_interface_mode_is_rgmii (interface gmac) = true /\
      (let '((rc, _), w') := sun7i_gmac_init (fault_at 2) gmac w in
       rc = 0 /\ failed_set_rate (issued w w') = true /\
       clk_rate w' <> SUN7I_GMAC_GMII_RGMII_RATE)
  | inl _ => False
  end.
Proof.
  vm_compute. repeat split; try reflexivity. discriminate.
Qed.

(** ** Invariants of the life cycle *)

Lemma init_covers (fault : nat -> Z) (gmac : sunxi_priv_data) (w : world) :
  clk_running w = false ->
  let '((_, gmac'), w') := sun7i_gmac_init fault gmac w in
  flag_covers_clock gmac' w'.
Proof.
  destruct gmac as [i flag clk r f], w as [p e rate s v l].
  cbn [clk_running]. intros ->. unfold flag_covers_clock.
  destruct r, f; run_driver fault;
    cbn [regmap_field clk_running clk_enabled]; intros; congruence.
Qed.

Lemma fix_speed_covers (fault : nat -> Z) (gmac : sunxi_priv_data)
    (speed : Z) (w : world) :
  flag_covers_clock gmac w ->
  let '(gmac', w') := sun7i_fix_speed fault gmac speed w in
  flag_covers_clock gmac' w'.
Proof.
  destruct gmac as [i flag clk r f], w as [p e rate s v l].
  unfold flag_covers_clock.
  cbn [regmap_field clk_running clk_enabled]. intros H.
  destruct f; run_driver fault;
    cbn [regmap_field clk_running clk_enabled]; intros; try congruence;
    auto.
Qed.

(** What [init], [fix_speed] and [exit] leave alone in the private data. *)
Lemma run_operation_frame (fault : nat -> Z) (gmac : sunxi_priv_data)
    (o : operation) (w : world) :
  let '(gmac', w') := run_operation fault gmac o w in
  interface gmac' = interface gmac /\ tx_clk gmac' = tx_clk gmac /\
  regulator gmac' = regulator gmac /\
  regmap_field gmac' = regmap_field gmac /\
  (regmap_field gmac <> None ->
   clk_enabled gmac' = clk_enabled gmac /\
   forall v, run_operation fault (set_clk_enabled v gmac) o w
             = (set_clk_enabled v gmac', w')).
Proof.
  destruct gmac as [i flag clk r f], w as [p e rate s v l].
  destruct o as [|speed|]; unfold run_operation;
    destruct r, f; run_driver fault;
    cbn [interface tx_clk regulator regmap_field clk_enabled];
    repeat split; try reflexivity; intros; try congruence;
    run_driver fault; reflexivity.
Qed.

Lemma fix_speed_frame (fault : nat -> Z) (gmac : sunxi_priv_data)
    (speed : Z) (w : world) :
  let '(gmac', w') := sun7i_fix_speed fault gmac speed w in
  regmap_field gmac' = regmap_field gmac /\
  (regmap_field gmac <> None -> clk_enabled gmac' = clk_enabled gmac).
Proof.
  pose proof (run_operation_frame fault gmac (op_fix_speed speed) w) as H.
  cbn [run_operation] in H.
  destruct (sun7i_fix_speed fault gmac speed w) as [gmac' w'].
  destruct H as (_ & _ & _ & Hf & Hm). split; [exact Hf|].
  intros Hn. apply (Hm Hn).
Qed.

Lemma init_state (fault : nat -> Z) (pdev : platform_device)
    (w0 w1 w : world) (g0 gmac : sunxi_priv_data) (rc : Z) :
  clk_unused w0 ->
  sun7i_gmac_discover pdev w0 = (inr g0, w1) ->
  sun7i_gmac_init fault g0 w1 = ((rc, gmac), w) ->
  flag_covers_clock gmac w /\
  (regmap_field gmac <> None -> clk_enabled gmac = 0).
Proof.
  intros Hw0 Hd Hi.
  destruct (discover_priv _ _ _ _ Hd) as [Hflag _].
  destruct (discover_unused _ _ _ _ Hw0 Hd) as [_ He].
  pose proof (init_covers fault g0 w1 He) as Hc.
  pose proof (run_operation_frame fault g0 op_init w1) as Hfr.
  cbn [run_operation] in Hfr. unfold bind, ret in Hfr.
  rewrite Hi in Hc, Hfr. cbn [snd] in Hfr.
  destruct Hfr as (_ & _ & _ & Hf & Hm). split.
  - exact Hc.
  - intros Hn. rewrite Hf in Hn. destruct (Hm Hn) as [Heq _]. congruence.
Qed.

Lemma fix_speeds_state (fault : nat -> Z) (speeds : list Z) :
  forall (gmac : sunxi_priv_data) (w : world),
  flag_covers_clock gmac w ->
  (regmap_field gmac <> None -> clk_enabled gmac = 0) ->
  let '(gmac', w') := fix_speeds fault gmac speeds w in
  flag_covers_clock gmac' w' /\
  (regmap_field gmac' <> None -> clk_enabled gmac' = 0).
Proof.
  induction speeds as [|speed rest IH]; intros gmac w Hc Hm.
  - cbn. split; assumption.
  - cbn [fix_speeds]. unfold bind.
    pose proof (fix_speed_covers fault gmac speed w Hc) as Hc1.
    pose proof (fix_speed_frame fault gmac speed w) as Hf1.
    destruct (sun7i_fix_speed fault gmac speed w) as [g1 w1].
    destruct Hf1 as [Hf Hk]. apply IH; [exact Hc1|].
    intros Hn. rewrite Hf in Hn. rewrite (Hk Hn). exact (Hm Hn).
Qed.

(** Every state reached after a successful [init] keeps the flag in step
    with the clock on the Legacy path and clear on the Modern path. *)
Lemma post_init_state (fault : nat -> Z) (gmac : sunxi_priv_data) (w : world) :
  post_init fault gmac w ->
  flag_covers_clock gmac w /\
  (regmap_field gmac <> None -> clk_enabled gmac = 0).
Proof.
  intros (pdev & speeds & w0 & Hw0 & H).
  unfold bring_up, bind in H.
  destruct (sun7i_gmac_discover pdev w0) as [[e|g0] w1] eqn:Hd;
    [discriminate H|].
  destruct (sun7i_gmac_init fault g0 w1) as [[rc g1] w2] eqn:Hi.
  cbn [fst snd] in H.
  destruct (rc =? 0); [|discriminate H].
  destruct (init_state _ _ _ _ _ _ _ _ Hw0 Hd Hi) as [Hc Hm].
  pose proof (fix_speeds_state fault speeds g1 w2 Hc Hm) as Hs.
  destruct (fix_speeds fault g1 speeds w2) as [g2 w3].
  unfold ret in H. injection H as <- <-. exact Hs.
Qed.

(** ** [fix_speed] *)

(** C3 (as amended): on the Modern path [fix_speed] leaves the private
    data alone and the mode-select field holding the RGMII value for
    speed 1000 and the MII value for any other speed; the clock ends
    prepared and running exactly when the prepare and enable calls of
    the re-arm both succeed, and is left unprepared and stopped when one
    of them fails.  The interface mode plays no part. *)
Theorem fix_speed_modern_outcome (fault : nat -> Z) (gmac : sunxi_priv_data)
    (field : handle) (speed : Z) (w : world) :
  regmap_field gmac = Some field ->
  let '(gmac', w') := sun7i_fix_speed fault gmac speed w in
  gmac' = gmac /\
  regmap_field_read w' =
    (if speed =? 1000 then SUN7I_A20_RGMII_CLK else SUN7I_A20_MII_CLK) /\
  clk_prepared w' = all_ok (issued w w') /\
  clk_running w' = all_ok (issued w w') /\
  (forall mode,
     sun7i_fix_speed fault (set_interface mode gmac) speed w
     = (set_interface mode gmac, w')).
Proof.
  destruct gmac as [i flag clk r f], w as [p e rate s v l].
  cbn [regmap_field]. intros ->. unfold regmap_field_read.
  run_driver fault; cbn [ccu_reg clk_prepared clk_running];
    rewrite ?field_get_update_rgmii, ?field_get_update_mii;
    repeat split; try reflexivity; intros; run_driver fault; reflexivity.
Qed.

Lemma fix_speed_modern_outcome_witness :
  let gmac := mk_priv PHY_INTERFACE_MODE_RGMII 0 2%positive None (Some 4%positive) in
  regmap_field gmac = Some 4%positive /\
  (let '(gmac', w') := sun7i_fix_speed no_fault gmac 100 boot in
   gmac' = gmac /\ regmap_field_read w' = SUN7I_A20_MII_CLK /\
   clk_prepared w' = true /\ clk_running w' = true).
Proof.
  pose (gmac := mk_priv PHY_INTERFACE_MODE_RGMII 0 2%positive None (Some 4%positive)).
  pose proof (fix_speed_modern_outcome no_fault gmac 4%positive 100 boot
                eq_refl) as H.
  cbv zeta. split; [reflexivity|].
  vm_compute in H. vm_compute.
  destruct H as (H1 & H2 & H3 & H4 & _).
  repeat split; assumption.
Defined.

(** C3 (as stated, refuted): a Modern RGMII device after a successful
    [init]; the prepare call of the re-arm fails, its error is dropped and
    [fix_speed 1000] returns with the clock stopped and unprepared. *)
Lemma fix_speed_modern_prepare_fault :
  let pdev := modern_board PHY_INTERFACE_MODE_RGMII no_supply in
  let '(r, w) := bring_up (fault_at 9) pdev [] boot in
  match r with
  | Some gmac =>
      regmap_field gmac <> None /\
      clk_prepared w = true /\ clk_running w = true /\
      (let '(_, w') := sun7i_fix_speed (fault_at 9) gmac 1000 w in
       failed_prepare (issued w w') = true /\
       clk_prepared w' = false /\ clk_running w' = false)
  | None => False
  end.
Proof.
  vm_compute. repeat split; try reflexivity. discriminate.
Qed.

(** C4 (as amended): on the Legacy path [fix_speed] changes nothing at
    all unless the mode is exactly GMII.  For GMII, in a state reached
    after a successful [init], it leaves the flag at 1 for speed 1000 and
    at 0 for any other speed; when its rate call does not fail, the rate
    at 125 MHz for speed 1000 and at 25 MHz otherwise; and when neither
    its prepare nor its enable fails, the clock prepared and running for
    speed 1000 and prepared but stopped otherwise. *)
Theorem fix_speed_legacy_outcome (fault : nat -> Z) (gmac : sunxi_priv_data)
    (speed : Z) (w : world) :
  regmap_field gmac = None ->
  let '(gmac', w') := sun7i_fix_speed fault gmac speed w in
  (interface gmac <> PHY_INTERFACE_MODE_GMII -> gmac' = gmac /\ w' = w) /\
  (interface gmac = PHY_INTERFACE_MODE_GMII ->
   post_init fault gmac w ->
   clk_enabled gmac' = (if speed =? 1000 then 1 else 0) /\
   (failed_set_rate (issued w w') = false ->
    clk_rate w' = (if speed =? 1000 then SUN7I_GMAC_GMII_RGMII_RATE
                   else SUN7I_GMAC_MII_RATE)) /\
   (failed_prepare (issued w w') = false ->
    failed_enable (issued w w') = false ->
    clk_prepared w' = true /\
    clk_running w' = (speed =? 1000))).
Proof.
  intros Hf.
  assert (Hinv : post_init fault gmac w -> clk_running w = true ->
                 clk_enabled gmac <> 0).
  { intros Hp. destruct (post_init_state _ _ _ Hp) as [Hc _].
    exact (Hc Hf). }
  destruct gmac as [i flag clk r f], w as [p e rate s v l].
  cbn [regmap_field interface clk_running clk_enabled] in *. subst f.
  destruct (is_gmii i) eqn:Hg.
  - assert (i = PHY_INTERFACE_MODE_GMII) as -> by (destruct i; easy).
    run_driver fault; (split; [congruence|]); intros _ Hp;
      cbn [clk_enabled clk_rate clk_prepared clk_running];
      (split; [reflexivity|]); split; intros; try discriminate;
      try reflexivity; try (split; [reflexivity|]); try reflexivity.
    all: destruct e; [exfalso; apply (Hinv Hp); reflexivity | reflexivity].
  - unfold sun7i_fix_speed. cbn [regmap_field interface]. rewrite Hg.
    cbn [negb]. unfold ret. split; [intros _; split; reflexivity|].
    intros ->. discriminate Hg.
Qed.

Lemma fix_speed_legacy_outcome_witness :
  (let pdev := legacy_board PHY_INTERFACE_MODE_GMII no_supply in
   let '(r, w) := bring_up no_fault pdev [] boot in
   match r with
   | Some gmac =>
       regmap_field gmac = None /\
       interface gmac = PHY_INTERFACE_MODE_GMII /\
       post_init no_fault gmac w /\
       (let '(gmac', w') := sun7i_fix_speed no_fault gmac 1000 w in
        clk_enabled gmac' = 1 /\
        clk_rate w' = SUN7I_GMAC_GMII_RGMII_RATE /\
        clk_prepared w' = true /\ clk_running w' = true)
   | None => False
   end) /\
  (let gmac := mk_priv PHY_INTERFACE_MODE_RGMII 1 2%positive None None in
   regmap_field gmac = None /\
   interface gmac <> PHY_INTERFACE_MODE_GMII /\
   sun7i_fix_speed no_fault gmac 10 boot = (gmac, boot)).
Proof.
  split.
  - cbv zeta.
    set (x := bring_up _ _ _ _). vm_compute in x. subst x. cbv beta iota.
    match goal with
    | |- _ /\ _ /\ post_init _ ?g ?w /\ _ =>
        assert (Hpi : post_init no_fault g w);
        [ exists (legacy_board PHY_INTERFACE_MODE_GMII no_supply), [], boot;
          split; [split; reflexivity | vm_compute; reflexivity]
        | pose proof (fix_speed_legacy_outcome no_fault g 1000 w eq_refl)
            as H ]
    end.
    set (y := sun7i_fix_speed _ _ _ _) in *. vm_compute in y. subst y.
    cbv beta iota in H |- *.
    destruct H as [_ H]. destruct (H eq_refl Hpi) as (H1 & H2 & H3).
    pose proof (H2 eq_refl) as H4. destruct (H3 eq_refl eq_refl) as [H5 H6].
    repeat split; assumption.
  - cbv zeta.
    pose proof (fix_speed_legacy_outcome no_fault
                  (mk_priv PHY_INTERFACE_MODE_RGMII 1 2%positive None None)
                  10 boot eq_refl) as H.
    assert (Hn : PHY_INTERFACE_MODE_RGMII <> PHY_INTERFACE_MODE_GMII)
      by discriminate.
    split; [reflexivity|]. split; [exact Hn|].
    destruct (sun7i_fix_speed no_fault _ 10 boot) as [g' w'].
    destruct H as [H _]. destruct (H Hn) as [-> ->]. reflexivity.
Defined.

(** C4 (as stated, refuted): a Legacy GMII device after a successful
    [init]; the rate call of [fix_speed 1000] fails, its error is dropped
    and the rate stays at 25 MHz. *)
Lemma fix_speed_legacy_gmii_set_rate_fault :
  let pdev := legacy_board PHY_INTERFACE_MODE_GMII no_supply in
  let '(r, w) := bring_up (fault_at 5) pdev [] boot in
  match r with
  | Some gmac =>
      regmap_field gmac = None /\
      interface gmac = PHY_INTERFACE_MODE_GMII /\
      (let '(_, w') := sun7i_fix_speed (fault_at 5) gmac 1000 w in
       failed_set_rate (issued w w') = true /\
       clk_rate w' = SUN7I_GMAC_MII_RATE /\
       clk_rate w' <> SUN7I_GMAC_GMII_RGMII_RATE)
  | None => False
  end.
Proof.
  vm_compute. repeat split; try reflexivity. discriminate.
Qed.

(** C6 (as amended): in any state reached after a successful [init], on
    either path, a second [fix_speed] with the same speed changes nothing
    that can be observed, provided its fallible clock calls return what
    those of the first one returned (in particular when none of them
    fails). *)
Theorem fix_speed_idempotent (fault : nat -> Z) (gmac : sunxi_priv_data)
    (speed : Z) (w : world) :
  post_init fault gmac w ->
  let '(gmac1, w1) := sun7i_fix_speed fault gmac speed w in
  let '(gmac2, w2) := sun7i_fix_speed fault gmac1 speed w1 in
  fallible_calls (issued w1 w2) = fallible_calls (issued w w1) ->
  observe gmac2 w2 = observe gmac1 w1.
Proof.
  intros Hp. destruct (post_init_state _ _ _ Hp) as [Hc _]. clear Hp.
  destruct gmac as [i flag clk r f], w as [p e rate s v l].
  unfold flag_covers_clock in Hc.
  cbn [regmap_field clk_running clk_enabled] in Hc.
  unfold observe, regmap_field_read.
  destruct f; repeat step_driver fault;
    repeat rewrite <- app_assoc; cbn [app];
    rewrite ?issued_app_app, ?issued_app;
    try (rewrite <- (app_nil_r l) at 1; rewrite issued_app_app);
    cbn [skipn List.length fallible_calls filter is_fallible];
    cbn [ccu_reg clk_rate clk_prepared clk_running supply_on];
    rewrite ?field_get_update_rgmii, ?field_get_update_mii;
    intros H; try (injection H as H); try discriminate; subst;
    try congruence; try reflexivity.
  all: destruct e; [exfalso; apply Hc; reflexivity | reflexivity].
Qed.

Lemma fix_speed_idempotent_witness :
  let pdev := modern_board PHY_INTERFACE_MODE_RGMII a_supply in
  let '(r, w) := bring_up no_fault pdev [100] boot in
  match r with
  | Some gmac =>
      post_init no_fault gmac w /\
      (let '(gmac1, w1) := sun7i_fix_speed no_fault gmac 1000 w in
       let '(gmac2, w2) := sun7i_fix_speed no_fault gmac1 1000 w1 in
       fallible_calls (issued w1 w2) = fallible_calls (issued w w1) /\
       observe gmac2 w2 = observe gmac1 w1)
  | None => False
  end.
Proof.
  cbv zeta.
  set (x := bring_up _ _ _ _). vm_compute in x. subst x. cbv beta iota.
  match goal with
  | |- post_init _ ?g ?w /\ _ =>
      assert (Hpi : post_init no_fault g w);
      [ exists (modern_board PHY_INTERFACE_MODE_RGMII a_supply), [100], boot;
        split; [split; reflexivity | vm_compute; reflexivity]
      | pose proof (fix_speed_idempotent no_fault g 1000 w Hpi) as H ]
  end.
  split; [exact Hpi|].
  set (y := sun7i_fix_speed _ _ _ _) in *. vm_compute in y. subst y.
  cbv beta iota in H |- *.
  set (z := sun7i_fix_speed _ _ _ _) in *. vm_compute in z. subst z.
  cbv beta iota in H |- *.
  split; [reflexivity | exact (H eq_refl)].
Defined.

(** C6 (as stated, refuted): a Modern RGMII device after a successful
    [init]; the first [fix_speed 1000] leaves the clock running, the
    second one, whose prepare call fails, leaves it stopped. *)
Lemma fix_speed_twice_prepare_fault :
  let pdev := modern_board PHY_INTERFACE_MODE_RGMII no_supply in
  let '(r, w) := bring_up (fault_at 14) pdev [] boot in
  match r with
  | Some gmac =>
      (let '(gmac1, w1) := sun7i_fix_speed (fault_at 14) gmac 1000 w in
       let '(gmac2, w2) := sun7i_fix_speed (fault_at 14) gmac1 1000 w1 in
       fallible_calls (issued w1 w2) <> fallible_calls (issued w w1) /\
       clk_running w1 = true /\ clk_running w2 = false /\
       observe gmac2 w2 <> observe gmac1 w1)
  | None => False
  end.
Proof.
  vm_compute. repeat split; try reflexivity; discriminate.
Qed.

(** ** [exit] *)

(** C5: from any state reached after a successful [init] and any number
    of link-speed events, on either path and whatever the clock calls
    returned along the way, [exit] leaves the clock stopped and
    unprepared and the flag clear, the mode-select field at zero on the
    Modern path and, when there is a regulator, the supply off, the
    regulator disable being the last call made. *)
Theorem exit_releases_everything (fault : nat -> Z) (gmac : sunxi_priv_data)
    (w : world) :
  post_init fault gmac w ->
  let '(gmac', w') := sun7i_gmac_exit gmac w in
  clk_running w' = false /\ clk_prepared w' = false /\
  clk_enabled gmac' = 0 /\
  (regmap_field gmac <> None -> regmap_field_read w' = 0) /\
  (regulator gmac <> None ->
   supply_on w' = false /\
   exists before, issued w w' = before ++ [regulator_disable_call]).
Proof.
  intros Hp. destruct (post_init_state _ _ _ Hp) as [Hc Hm]. clear Hp.
  destruct gmac as [i flag clk r f], w as [p e rate s v l].
  unfold flag_covers_clock in Hc.
  cbn [regmap_field clk_running clk_enabled] in Hc, Hm.
  unfold regmap_field_read.
  destruct f, r; run_driver fault;
    cbn [ccu_reg clk_prepared clk_running clk_enabled supply_on
         regmap_field regulator];
    rewrite ?field_get_update_zero;
    repeat split; intros; try reflexivity; try congruence;
    try (apply Hm; discriminate);
    try (destruct e; [exfalso; apply Hc; reflexivity | reflexivity]).
  all: match goal with
       | |- exists before, ?l = _ =>
           match l with
           | [?a; ?b; ?c; ?d] => exists [a; b; c]
           | [?a; ?b; ?c] => exists [a; b]
           | [?a; ?b] => exists [a]
           end; reflexivity
       end.
Qed.

Lemma exit_releases_everything_witness :
  (let pdev := legacy_board PHY_INTERFACE_MODE_GMII a_supply in
   let '(r, w) := bring_up no_fault pdev [1000; 10; 1000] boot in
   match r with
   | Some gmac =>
       post_init no_fault gmac w /\
       clk_running w = true /\ supply_on w = true /\
       (let '(gmac', w') := sun7i_gmac_exit gmac w in
        clk_running w' = false /\ clk_prepared w' = false /\
        clk_enabled gmac' = 0 /\ supply_on w' = false)
   | None => False
   end) /\
  (let pdev := modern_board PHY_INTERFACE_MODE_RGMII a_supply in
   let '(r, w) := bring_up no_fault pdev [100] boot in
   match r with
   | Some gmac =>
       post_init no_fault gmac w /\
       clk_running w = true /\ regmap_field_read w = SUN7I_A20_MII_CLK /\
       (let '(gmac', w') := sun7i_gmac_exit gmac w in
        clk_running w' = false /\ clk_prepared w' = false /\
        regmap_field_read w' = 0 /\ supply_on w' = false)
   | None => False
   end).
Proof.
  split; cbv zeta.
  - set (x := bring_up _ _ _ _). vm_compute in x. subst x. cbv beta iota.
    match goal with
    | |- post_init _ ?g ?w /\ _ =>
        assert (Hpi : post_init no_fault g w);
        [ exists (legacy_board PHY_INTERFACE_MODE_GMII a_supply),
                 [1000; 10; 1000], boot;
          split; [split; reflexivity | vm_compute; reflexivity]
        | pose proof (exit_releases_everything no_fault g w Hpi) as H ]
    end.
    split; [exact Hpi|].
    set (y := sun7i_gmac_exit _ _) in *. vm_compute in y. subst y.
    cbv beta iota in H |- *.
    destruct H as (H1 & H2 & H3 & _ & H5).
    destruct H5 as [H5 _]; [discriminate|].
    repeat split; assumption || reflexivity.
  - set (x := bring_up _ _ _ _). vm_compute in x. subst x. cbv beta iota.
    match goal with
    | |- post_init _ ?g ?w /\ _ =>
        assert (Hpi : post_init no_fault g w);
        [ exists (modern_board PHY_INTERFACE_MODE_RGMII a_supply),
                 [100], boot;
          split; [split; reflexivity | vm_compute; reflexivity]
        | pose proof (exit_releases_everything no_fault g w Hpi) as H ]
    end.
    split; [exact Hpi|].
    set (y := sun7i_gmac_exit _ _) in *. vm_compute in y. subst y.
    cbv beta iota in H |- *.
    destruct H as (H1 & H2 & _ & H4 & H5).
    destruct H5 as [H5 _]; [discriminate|].
    pose proof (H4 ltac:(discriminate)) as H6.
    split; [reflexivity|]. split; [reflexivity|].
    split; [exact H1|]. split; [exact H2|]. split; [exact H6 | exact H5].
Defined.

(** ** Frame *)

Lemma run_operations_frame (fault : nat -> Z) (ops : list operation) :
  forall (gmac : sunxi_priv_data) (w : world),
  let '(gmac', w') := run_operations fault gmac ops w in
  interface gmac' = interface gmac /\ tx_clk gmac' = tx_clk gmac /\
  regulator gmac' = regulator gmac /\
  regmap_field gmac' = regmap_field gmac /\
  (regmap_field gmac <> None ->
   clk_enabled gmac' = clk_enabled gmac /\
   forall v, run_operations fault (set_clk_enabled v gmac) ops w
             = (set_clk_enabled v gmac', w')).
Proof.
  induction ops as [|o rest IH]; intros gmac w.
  - cbn. repeat split; reflexivity.
  - cbn [run_operations]. unfold bind.
    pose proof (run_operation_frame fault gmac o w) as H1.
    destruct (run_operation fault gmac o w) as [g1 w1].
    destruct H1 as (Hi & Hc & Hr & Hf & Hm).
    pose proof (IH g1 w1) as H2.
    destruct (run_operations fault g1 rest w1) as [g2 w2].
    destruct H2 as (Hi2 & Hc2 & Hr2 & Hf2 & Hm2).
    repeat split; try congruence.
    + destruct (Hm H) as [E1 _].
      assert (Hn : regmap_field g1 <> None) by congruence.
      destruct (Hm2 Hn) as [E2 _]. congruence.
    + intros v. destruct (Hm H) as [_ E1]. rewrite E1.
      assert (Hn : regmap_field g1 <> None) by congruence.
      destruct (Hm2 Hn) as [_ E2]. apply E2.
Qed.

(** C10: starting from the private data discovery hands over, no
    sequence of [init], [fix_speed] and [exit] calls changes the interface
    mode, the clock handle, the regulator handle or the register-field
    handle.  On the Modern path the flag stays at zero, and the run does
    not depend on it: started with any other flag value, it makes the
    same calls, reaches the same world and hands that value back. *)
Theorem operations_frame (fault : nat -> Z) (pdev : platform_device)
    (w0 w : world) (gmac : sunxi_priv_data) (ops : list operation) :
  sun7i_gmac_discover pdev w0 = (inr gmac, w) ->
  let '(gmac', w') := run_operations fault gmac ops w in
  interface gmac' = interface gmac /\ tx_clk gmac' = tx_clk gmac /\
  regulator gmac' = regulator gmac /\
  regmap_field gmac' = regmap_field gmac /\
  (regmap_field gmac <> None ->
   clk_enabled gmac' = 0 /\
   forall v, run_operations fault (set_clk_enabled v gmac) ops w
             = (set_clk_enabled v gmac', w')).
Proof.
  intros Hd. destruct (discover_priv _ _ _ _ Hd) as [Hflag _].
  pose proof (run_operations_frame fault ops gmac w) as H.
  destruct (run_operations fault gmac ops w) as [gmac' w'].
  destruct H as (Hi & Hc & Hr & Hf & Hm).
  repeat split; try assumption.
  - destruct (Hm H) as [E _]. congruence.
  - intros v. destruct (Hm H) as [_ E]. apply E.
Qed.

Lemma operations_frame_witness :
  let pdev := modern_board PHY_INTERFACE_MODE_RGMII a_supply in
  let ops := [op_init; op_fix_speed 100; op_fix_speed 1000; op_exit; op_init] in
  let '(d, w) := sun7i_gmac_discover pdev boot in
  match d with
  | inr gmac =>
      let '(gmac', w') := run_operations no_fault gmac ops w in
      regmap_field gmac <> None /\ gmac' = gmac /\ clk_enabled gmac' = 0 /\
      run_operations no_fault (set_clk_enabled 7 gmac) ops w
      = (set_clk_enabled 7 gmac', w')
  | inl _ => False
  end.
Proof.
  pose (pdev := modern_board PHY_INTERFACE_MODE_RGMII a_supply).
  pose (ops := [op_init; op_fix_speed 100; op_fix_speed 1000; op_exit; op_init]).
  pose proof (operations_frame no_fault pdev boot _ _ ops eq_refl) as H.
  cbv zeta.
  set (x := sun7i_gmac_discover _ _). vm_compute in x. subst x.
  cbv beta iota.
  set (y := run_operations _ _ _ _) in *. vm_compute in y. subst y.
  cbv beta iota in H |- *.
  destruct H as (_ & _ & _ & _ & H).
  assert (Hn : Some 4%positive <> (None : option handle)) by discriminate.
  destruct (H Hn) as [H1 H2].
  split; [exact Hn|]. split; [reflexivity|].
  split; [exact H1 | exact (H2 7)].
Defined.

(** ** Error paths *)

(** C7 (as amended): with the syscon reference present and its owning
    device not bound yet, [sun7i_gmac_get_syscon_from_dev] answers with
    the deferred error, and discovery then falls back on the
    phandle-based syscon lookup.  If that lookup fails, discovery fails
    with the error the lookup gave (deferred only when the lookup says
    so), having requested the clock handle and nothing else: no clock,
    supply or register call is made and the regulator is never looked
    up.  If the lookup succeeds, discovery goes on along the Modern
    path. *)
Theorem discover_unbound_syscon (pdev : platform_device)
    (node : syscon_node_t) (w0 : world) :
  reaches_syscon pdev ->
  of_parse_phandle_syscon (of_node pdev) = Some node ->
  of_find_device_by_node node = None ->
  sun7i_gmac_get_syscon_from_dev (of_node pdev) = inl (- EPROBE_DEFER) /\
  (forall e, syscon_regmap_lookup_by_phandle pdev = inl e ->
     sun7i_gmac_discover pdev w0
     = (inl e, with_call stmmac_remove_config_dt_call
                 (with_call (devm_clk_get_call "stmmaceth") w0))) /\
  (forall regmap field,
     syscon_regmap_lookup_by_phandle pdev = inr regmap ->
     devm_regmap_field_alloc pdev regmap = inr field ->
     devm_regulator_get_optional pdev <> inl (- EPROBE_DEFER) ->
     exists gmac w,
       sun7i_gmac_discover pdev w0 = (inr gmac, w) /\
       regmap_field gmac = Some field).
Proof.
  destruct pdev as [[mode syscon] res cfg kz getclk lookup falloc regul dvr].
  destruct node as [bound].
  unfold reaches_syscon.
  cbn [of_node stmmac_get_platform_resources stmmac_probe_config_dt
       devm_kzalloc devm_clk_get syscon_regmap_lookup_by_phandle
       devm_regmap_field_alloc devm_regulator_get_optional
       of_get_phy_mode of_parse_phandle_syscon of_find_device_by_node].
  intros (-> & [plat_dat ->] & -> & Hmode & [clk Hclk]) -> ->.
  split; [reflexivity|]. split.
  - intros e ->. unfold_probe. unfold_driver. rewrite Hclk.
    destruct Hmode as [-> | [m ->]]; reflexivity.
  - intros regmap field -> Hfield Hreg. unfold_probe. unfold_driver.
    rewrite Hclk, Hfield.
    destruct Hmode as [-> | [m ->]]; cbv beta iota zeta;
      change (negb (0 =? 0)) with false;
      change (negb (- ENODEV =? 0)) with true;
      change (negb (- ENODEV =? - ENODEV)) with false;
      cbn [andb];
      (destruct regul as [e|r];
       [ destruct (Z.eqb_spec e (- EPROBE_DEFER)) as [->|Hne];
         [ exfalso; apply Hreg; reflexivity | ]
       | ]); eexists; eexists; split; reflexivity.
Qed.

Lemma discover_unbound_syscon_witness :
  let deferred := a_board PHY_INTERFACE_MODE_RGMII (Some syscon_unbound)
                    (inl (- EPROBE_DEFER)) a_supply in
  let found := a_board PHY_INTERFACE_MODE_RGMII (Some syscon_unbound)
                 (inr 3%positive) a_supply in
  reaches_syscon deferred /\ reaches_syscon found /\
  of_find_device_by_node syscon_unbound = None /\
  sun7i_gmac_discover deferred boot
  = (inl (- EPROBE_DEFER),
     with_call stmmac_remove_config_dt_call
       (with_call (devm_clk_get_call "stmmaceth") boot)) /\
  (exists gmac w,
     sun7i_gmac_discover found boot = (inr gmac, w) /\
     regmap_field gmac = Some 4%positive).
Proof.
  cbv zeta.
  assert (Hr : forall lookup,
             reaches_syscon (a_board PHY_INTERFACE_MODE_RGMII
                               (Some syscon_unbound) lookup a_supply)).
  { intros lookup. unfold reaches_syscon. split; [reflexivity|].
    split; [exists 1%positive; reflexivity|].
    split; [reflexivity|].
    split; [right; exists PHY_INTERFACE_MODE_RGMII; reflexivity|].
    exists 2%positive; reflexivity. }
  split; [apply Hr|]. split; [apply Hr|]. split; [reflexivity|].
  split.
  - destruct (discover_unbound_syscon _ syscon_unbound boot
                (Hr (inl (- EPROBE_DEFER))) eq_refl eq_refl)
      as (_ & H & _).
    exact (H (- EPROBE_DEFER) eq_refl).
  - destruct (discover_unbound_syscon _ syscon_unbound boot
                (Hr (inr 3%positive)) eq_refl eq_refl)
      as (_ & _ & H).
    apply (H 3%positive 4%positive eq_refl eq_refl). discriminate.
Defined.

(** C7 (as stated, refuted): the syscon reference is present, its owning
    device is not bound, and the phandle-based lookup finds a regmap:
    discovery succeeds on the Modern path and the whole probe returns
    0. *)
Lemma discover_unbound_syscon_succeeds :
  let pdev := a_board PHY_INTERFACE_MODE_RGMII (Some syscon_unbound)
                (inr 3%positive) no_supply in
  of_parse_phandle_syscon (of_node pdev) = Some syscon_unbound /\
  of_find_device_by_node syscon_unbound = None /\
  sun7i_gmac_get_syscon_from_dev (of_node pdev) = inl (- EPROBE_DEFER) /\
  fst (sun7i_gmac_discover pdev boot)
  = inr (mk_priv PHY_INTERFACE_MODE_RGMII 0 2%positive None (Some 4%positive)) /\
  fst (fst (sun7i_gmac_probe no_fault pdev boot)) = 0.
Proof.
  vm_compute. repeat split; reflexivity.
Qed.

(** Whenever [init] fails after the regulator enable went through, the
    supply is still on when it returns and no regulator disable call has
    been made. *)
Lemma init_failure_keeps_supply (fault : nat -> Z) (gmac : sunxi_priv_data)
    (r : handle) (w : world) :
  regulator gmac = Some r ->
  let '((rc, _), w') := sun7i_gmac_init fault gmac w in
  rc <> 0 ->
  failed_regulator_enable (issued w w') = false ->
  supply_on w' = true /\
  existsb is_regulator_disable (issued w w') = false.
Proof.
  destruct gmac as [i flag clk r0 f], w as [p e rate s v l].
  cbn [regulator]. intros ->.
  destruct f; run_driver fault; intros; try congruence;
    try discriminate; split; reflexivity.
Qed.

(** C8 (the code departs from the claim): a Legacy MII device with a
    regulator whose clock prepare fails.  [init] returns the error with
    the supply it switched on still on, and [probe] hands the error on
    without any regulator disable call. *)
Theorem init_failure_leaves_supply_on :
  let pdev := legacy_board PHY_INTERFACE_MODE_MII a_supply in
  let '(d, w) := sun7i_gmac_discover pdev boot in
  match d with
  | inr gmac =>
      regulator gmac <> None /\ supply_on w = false /\
      (let '((rc, _), w') := sun7i_gmac_init (fault_at 4) gmac w in
       rc = - EINVAL /\
       issued w w' = [regulator_enable_call 0;
                      clk_set_rate_call SUN7I_GMAC_MII_RATE 0;
                      clk_prepare_call (- EINVAL)] /\
       supply_on w' = true) /\
      (let '((rc, priv), w') := sun7i_gmac_probe (fault_at 4) pdev boot in
       rc = - EINVAL /\ priv = None /\ supply_on w' = true /\
       existsb is_regulator_disable (calls w') = false)
  | inl _ => False
  end.
Proof.
  vm_compute. repeat split; try reflexivity. discriminate.
Qed.

(** C9 (as amended): [init] fails exactly when the regulator enable
    fails, or, on the Legacy path with a mode outside the RGMII family,
    the clock prepare fails, or, on the Modern path, whatever the mode, a
    prepare or enable call that [init] makes fails.  A failed rate call
    never makes [init] fail, and on the Legacy path with an RGMII-family
    mode no clock failure does. *)
Theorem init_failure_causes (fault : nat -> Z) (gmac : sunxi_priv_data)
    (w : world) :
  let '((rc, _), w') := sun7i_gmac_init fault gmac w in
  let l := issued w w' in
  (rc =? 0) =
    negb (failed_regulator_enable l
          || match regmap_field gmac with
             | Some _ => failed_prepare l || failed_enable l
             | None =>
                 negb (phy_interface_mode_is_rgmii (interface gmac))
                 && failed_prepare l
             end).
Proof.
  destruct gmac as [i flag clk r f], w as [p e rate s v l].
  cbn [regmap_field interface].
  destruct f as [field|], r; run_driver fault; reflexivity.
Qed.

(** C9 (as stated, refuted): an RGMII-family Legacy device whose rate
    call fails; [init] returns 0. *)
Lemma init_ignores_set_rate_failure :
  let gmac := mk_priv PHY_INTERFACE_MODE_RGMII 0 2%positive None None in
  let '((rc, _), w') := sun7i_gmac_init (fault_at 0) gmac boot in
  failed_set_rate (issued boot w') = true /\ rc = 0.
Proof.
  vm_compute. split; reflexivity.
Qed.

(** ** The scenarios of the spec, run in a fault-free environment *)

(** Scenario A: Modern path, RGMII mode.  [init] leaves the RGMII value
    and the clock running; [fix_speed 100] leaves the MII value and the
    clock running; [exit] leaves the field at zero, the clock stopped and
    unprepared and the supply off. *)
Example scenario_A :
  let pdev := modern_board PHY_INTERFACE_MODE_RGMII a_supply in
  let '(r0, w0) := bring_up no_fault pdev [] boot in
  let '(r1, w1) := bring_up no_fault pdev [100] boot in
  match r1 with
  | Some gmac =>
      let '(_, w2) := sun7i_gmac_exit gmac w1 in
      regmap_field_read w0 = SUN7I_A20_RGMII_CLK /\ clk_running w0 = true /\
      regmap_field_read w1 = SUN7I_A20_MII_CLK /\ clk_running w1 = true /\
      regmap_field_read w2 = 0 /\ clk_running w2 = false /\
      clk_prepared w2 = false /\ supply_on w2 = false
  | None => False
  end.
Proof.
  vm_compute. repeat split; reflexivity.
Qed.

(** Scenario B: Legacy path, GMII mode.  [init] leaves 25 MHz and the
    flag clear; [fix_speed 1000] leaves 125 MHz and the flag set;
    [fix_speed 10] leaves 25 MHz and the flag clear. *)
Example scenario_B :
  let pdev := legacy_board PHY_INTERFACE_MODE_GMII no_supply in
  let '(r0, w0) := bring_up no_fault pdev [] boot in
  let '(r1, w1) := bring_up no_fault pdev [1000] boot in
  let '(r2, w2) := bring_up no_fault pdev [1000; 10] boot in
  match r0, r1, r2 with
  | Some g0, Some g1, Some g2 =>
      clk_rate w0 = SUN7I_GMAC_MII_RATE /\ clk_enabled g0 = 0 /\
      clk_prepared w0 = true /\ clk_running w0 = false /\
      clk_rate w1 = SUN7I_GMAC_GMII_RGMII_RATE /\ clk_enabled g1 = 1 /\
      clk_running w1 = true /\
      clk_rate w2 = SUN7I_GMAC_MII_RATE /\ clk_enabled g2 = 0 /\
      clk_running w2 = false
  | _, _, _ => False
  end.
Proof.
  vm_compute. repeat split; reflexivity.
Qed.

(** * Further properties of the code *)

(** ** Discovery *)

(** X1: when the syscon reference leads to a bound device that has a
    regmap, discovery binds the register field on that regmap and never
    consults the phandle-based lookup: its outcome is the same whatever
    that lookup would answer, and when it succeeds the field allocation
    was requested on the platform device's regmap and the private data
    holds the field allocated there. *)
Theorem discover_prefers_platform_regmap (pdev : platform_device)
    (node : syscon_node_t) (dev : syscon_device) (regmap : handle)
    (lookup : Z + handle) (w0 : world) :
  of_parse_phandle_syscon (of_node pdev) = Some node ->
  of_find_device_by_node node = Some dev ->
  dev_get_regmap dev = Some regmap ->
  sun7i_gmac_discover (with_syscon_lookup lookup pdev) w0
  = sun7i_gmac_discover pdev w0 /\
  (forall gmac w,
     sun7i_gmac_discover pdev w0 = (inr gmac, w) ->
     In (devm_regmap_field_alloc_call regmap) (issued w0 w) /\
     (forall other, In (devm_regmap_field_alloc_call other) (issued w0 w) ->
                    other = regmap) /\
     exists field,
       devm_regmap_field_alloc pdev regmap = inr field /\
       regmap_field gmac = Some field).
Proof.
  destruct pdev as [[mode syscon] res cfg kz getclk lookup0 falloc regul dvr].
  destruct node as [bound], dev as [rm], w0 as [p e rate s v l].
  cbn [with_syscon_lookup of_node of_parse_phandle_syscon
       of_find_device_by_node dev_get_regmap devm_regmap_field_alloc].
  intros -> -> ->. split; [unfold_probe; reflexivity|].
  intros gmac w.
  match goal with |- _ -> ?C => set (post := C) end.
  unfold_probe. unfold_driver.
  split_matches; intros [= <- <-]; subst post;
    repeat rewrite <- app_assoc; cbn [app]; rewrite issued_app;
    cbn [regmap_field];
    (split; [cbn [In]; right; left; reflexivity|]);
    (split;
     [ intros other Hin; cbn [In] in Hin;
       repeat (destruct Hin as [Hin|Hin]; try discriminate Hin);
       try contradiction; congruence
     | eexists; split; reflexivity ]).
Qed.

Lemma discover_prefers_platform_regmap_witness :
  let pdev :=
    mk_platform_device
      (a_node PHY_INTERFACE_MODE_RGMII (Some syscon_bound))
      0 (inr 1%positive) true (fun _ => inr 2%positive)
      (inr 9%positive)
      (fun regmap => inr (regmap + 10)%positive) a_supply 0 in
  of_parse_phandle_syscon (of_node pdev) = Some syscon_bound /\
  sun7i_gmac_discover (with_syscon_lookup (inl (- EPROBE_DEFER)) pdev) boot
  = sun7i_gmac_discover pdev boot /\
  (let '(d, w) := sun7i_gmac_discover pdev boot in
   match d with
   | inr gmac =>
       In (devm_regmap_field_alloc_call 3%positive) (issued boot w) /\
       regmap_field gmac = Some 13%positive
   | inl _ => False
   end).
Proof.
  cbv zeta.
  set (pdev := mk_platform_device _ _ _ _ _ _ _ _ _).
  destruct (discover_prefers_platform_regmap pdev syscon_bound _ 3%positive
              (inl (- EPROBE_DEFER)) boot eq_refl eq_refl eq_refl)
    as [H1 H2].
  split; [reflexivity|]. split; [exact H1|].
  destruct (sun7i_gmac_discover pdev boot) as [[e|gmac] w] eqn:E;
    [vm_compute in E; discriminate E|].
  destruct (H2 gmac w eq_refl) as (H3 & _ & field & H4 & H5).
  split; [exact H3|].
  vm_compute in H4. injection H4 as <-. exact H5.
Defined.

(** X2: whatever error [sun7i_gmac_get_syscon_from_dev] reports (device
    not bound, or bound without a regmap), that error never leaves
    discovery: when the phandle-based lookup fails too, discovery returns
    the lookup's error, and when it succeeds discovery behaves as if the
    platform device had supplied that very regmap: the field is
    allocated on the looked-up regmap. *)
Theorem discover_syscon_error_replaced (pdev : platform_device)
    (node : syscon_node_t) (e0 : Z) (w0 : world) :
  reaches_syscon pdev ->
  of_parse_phandle_syscon (of_node pdev) = Some node ->
  sun7i_gmac_get_syscon_from_dev (of_node pdev) = inl e0 ->
  match syscon_regmap_lookup_by_phandle pdev with
  | inl e =>
      sun7i_gmac_discover pdev w0
      = (inl e, with_call stmmac_remove_config_dt_call
                  (with_call (devm_clk_get_call "stmmaceth") w0))
  | inr regmap =>
      forall e0', sun7i_gmac_discover pdev w0
      = sun7i_gmac_discover
          (mk_platform_device
             (mk_device_node (of_get_phy_mode (of_node pdev))
                (Some (mk_syscon_node
                         (Some (mk_syscon_device (Some regmap))))))
             (stmmac_get_platform_resources pdev)
             (stmmac_probe_config_dt pdev) (devm_kzalloc pdev)
             (devm_clk_get pdev) (inl e0')
             (devm_regmap_field_alloc pdev)
             (devm_regulator_get_optional pdev) (stmmac_dvr_probe pdev)) w0
  end.
Proof.
  destruct pdev as [[mode syscon] res cfg kz getclk lookup falloc regul dvr].
  unfold reaches_syscon.
  cbn [of_node stmmac_get_platform_resources stmmac_probe_config_dt
       devm_kzalloc devm_clk_get syscon_regmap_lookup_by_phandle
       devm_regmap_field_alloc devm_regulator_get_optional
       stmmac_dvr_probe of_get_phy_mode of_parse_phandle_syscon].
  intros (-> & [plat_dat ->] & -> & Hmode & [clk Hclk]) -> Hsys.
  destruct lookup as [e|regmap].
  - unfold_probe. unfold_driver. rewrite Hclk.
    unfold sun7i_gmac_get_syscon_from_dev in Hsys.
    cbn [of_parse_phandle_syscon] in Hsys.
    destruct node as [[[[rm|]]|]]; cbn in Hsys; try discriminate Hsys;
      destruct Hmode as [-> | [m ->]]; reflexivity.
  - intros e0'. unfold_probe. unfold_driver. rewrite Hclk.
    unfold sun7i_gmac_get_syscon_from_dev in Hsys.
    cbn [of_parse_phandle_syscon] in Hsys.
    destruct node as [[[[rm|]]|]]; cbn in Hsys; try discriminate Hsys;
      destruct Hmode as [-> | [m ->]]; reflexivity.
Qed.

Lemma discover_syscon_error_replaced_witness :
  let no_regmap := mk_syscon_node (Some (mk_syscon_device None)) in
  let pdev := a_board PHY_INTERFACE_MODE_MII (Some no_regmap)
                (inl (- ENODEV)) a_supply in
  let found :=
    mk_platform_device
      (a_node PHY_INTERFACE_MODE_MII (Some no_regmap))
      0 (inr 1%positive) true (fun _ => inr 2%positive)
      (inr 9%positive)
      (fun regmap => inr (regmap + 10)%positive) a_supply 0 in
  reaches_syscon pdev /\ reaches_syscon found /\
  sun7i_gmac_get_syscon_from_dev (of_node pdev) = inl (- EINVAL) /\
  sun7i_gmac_discover pdev boot
  = (inl (- ENODEV),
     with_call stmmac_remove_config_dt_call
       (with_call (devm_clk_get_call "stmmaceth") boot)) /\
  (let '(d, w) := sun7i_gmac_discover found boot in
   match d with
   | inr gmac =>
       regmap_field gmac = Some 19%positive /\
       In (devm_regmap_field_alloc_call 9%positive) (issued boot w)
   | inl _ => False
   end).
Proof.
  cbv zeta.
  set (no_regmap := mk_syscon_node (Some (mk_syscon_device None))).
  set (found := mk_platform_device _ _ _ _ _ _ _ _ _).
  assert (Hr : reaches_syscon
                 (a_board PHY_INTERFACE_MODE_MII (Some no_regmap)
                    (inl (- ENODEV)) a_supply)).
  { unfold reaches_syscon. split; [reflexivity|].
    split; [exists 1%positive; reflexivity|].
    split; [reflexivity|].
    split; [right; exists PHY_INTERFACE_MODE_MII; reflexivity|].
    exists 2%positive; reflexivity. }
  assert (Hf : reaches_syscon found).
  { unfold reaches_syscon. split; [reflexivity|].
    split; [exists 1%positive; reflexivity|].
    split; [reflexivity|].
    split; [right; exists PHY_INTERFACE_MODE_MII; reflexivity|].
    exists 2%positive; reflexivity. }
  split; [exact Hr|]. split; [exact Hf|]. split; [reflexivity|].
  split.
  - exact (discover_syscon_error_replaced _ _ (- EINVAL) boot Hr
             eq_refl eq_refl).
  - pose proof (discover_syscon_error_replaced found no_regmap (- EINVAL)
                  boot Hf eq_refl eq_refl) as H.
    cbv beta iota in H. rewrite (H 0). vm_compute.
    split; [reflexivity | right; left; reflexivity].
Defined.

(** X3: what a successful discovery hands over.  The flag is clear; the
    interface mode is the one the device tree gives, and NA when the
    property is missing; with a syscon reference the clock is the one
    named "stmmaceth" and the register field is the one allocated on the
    regmap that was resolved (the platform device's, else the looked-up
    one), without it the clock is the one named "allwinner_gmac_tx" and there
    is no register field; the regulator is the one found, and none when
    the lookup failed. *)
Theorem discover_success_shape (pdev : platform_device) (w0 w : world)
    (gmac : sunxi_priv_data) :
  sun7i_gmac_discover pdev w0 = (inr gmac, w) ->
  clk_enabled gmac = 0 /\
  interface gmac = match of_get_phy_mode (of_node pdev) with
                   | inr m => m
                   | inl _ => PHY_INTERFACE_MODE_NA
                   end /\
  match of_parse_phandle_syscon (of_node pdev) with
  | Some _ =>
      devm_clk_get pdev "stmmaceth" = inr (tx_clk gmac) /\
      exists regmap field,
        match sun7i_gmac_get_syscon_from_dev (of_node pdev) with
        | inr r => regmap = r
        | inl _ => syscon_regmap_lookup_by_phandle pdev = inr regmap
        end /\
        devm_regmap_field_alloc pdev regmap = inr field /\
        regmap_field gmac = Some field
  | None =>
      devm_clk_get pdev "allwinner_gmac_tx" = inr (tx_clk gmac) /\
      regmap_field gmac = None
  end /\
  regulator gmac = match devm_regulator_get_optional pdev with
                   | inr r => Some r
                   | inl _ => None
                   end.
Proof.
  destruct pdev as [[mode syscon] res cfg kz getclk lookup falloc regul dvr].
  destruct w0 as [p e rate s v l].
  cbn [of_node of_get_phy_mode of_parse_phandle_syscon devm_clk_get
       devm_regmap_field_alloc devm_regulator_get_optional
       syscon_regmap_lookup_by_phandle].
  destruct syscon as [[[[[rm|]]|]]|]; destruct mode as [em|m].
  all: match goal with |- _ -> ?C => set (post := C) end.
  all: unfold_probe; unfold_driver.
  all: split_matches; intros [= <- <-]; subst post;
    cbn [clk_enabled interface tx_clk regulator regmap_field];
    unfold sun7i_gmac_get_syscon_from_dev;
    cbn [of_parse_phandle_syscon of_find_device_by_node dev_get_regmap];
    repeat split; try reflexivity; try assumption; try congruence;
    eexists; eexists; repeat split; try reflexivity; eassumption.
Qed.

Lemma discover_success_shape_witness :
  let pdev := with_phy_mode (inl (- ENODEV))
                (modern_board PHY_INTERFACE_MODE_RGMII no_supply) in
  let '(d, w) := sun7i_gmac_discover pdev boot in
  match d with
  | inr gmac =>
      clk_enabled gmac = 0 /\ interface gmac = PHY_INTERFACE_MODE_NA /\
      regmap_field gmac = Some 4%positive /\ regulator gmac = None
  | inl _ => False
  end.
Proof.
  pose (pdev := with_phy_mode (inl (- ENODEV))
                  (modern_board PHY_INTERFACE_MODE_RGMII no_supply)).
  pose proof (discover_success_shape pdev boot _ _ eq_refl) as H.
  vm_compute in H. vm_compute.
  destruct H as (H1 & H2 & _ & H4).
  repeat split; assumption.
Defined.

(** X4: the PHY regulator is optional.  If discovery succeeds on a
    device that has one, then on the same device with a failing
    regulator lookup it returns the deferred error (after releasing the
    platform configuration) when the lookup says so, and for every other
    error it succeeds just the same, with no regulator. *)
Theorem discover_regulator_errors (pdev : platform_device) (r : handle)
    (w0 w : world) (gmac : sunxi_priv_data) :
  sun7i_gmac_discover (with_regulator_lookup (inr r) pdev) w0
  = (inr gmac, w) ->
  sun7i_gmac_discover
    (with_regulator_lookup (inl (- EPROBE_DEFER)) pdev) w0
  = (inl (- EPROBE_DEFER), with_call stmmac_remove_config_dt_call w) /\
  (forall e, e <> - EPROBE_DEFER ->
     sun7i_gmac_discover (with_regulator_lookup (inl e) pdev) w0
     = (inr (set_regulator None gmac), w)).
Proof.
  destruct pdev as [[mode syscon] res cfg kz getclk lookup falloc regul dvr].
  destruct w0 as [p e rate s v l].
  cbv beta iota delta
      [with_regulator_lookup of_node stmmac_get_platform_resources
       stmmac_probe_config_dt devm_kzalloc devm_clk_get
       syscon_regmap_lookup_by_phandle devm_regmap_field_alloc
       stmmac_dvr_probe].
  destruct mode as [em|m].
  all: match goal with |- _ -> ?C => set (post := C) end.
  all: unfold_probe; unfold_driver.
  all: split_matches; intros [= <- <-]; subst post;
    (split;
     [ unfold_probe; unfold_driver;
       repeat match goal with H : _ = _ |- _ => rewrite H end;
       reflexivity
     | intros e' He'; unfold_probe; unfold_driver;
       repeat match goal with H : _ = _ |- _ => rewrite H end;
       destruct (Z.eqb_spec e' (- EPROBE_DEFER)); [contradiction|];
       reflexivity ]).
Qed.

Lemma discover_regulator_errors_witness :
  let pdev := legacy_board PHY_INTERFACE_MODE_GMII no_supply in
  let '(d, w) := sun7i_gmac_discover
                   (with_regulator_lookup (inr 5%positive) pdev) boot in
  match d with
  | inr gmac =>
      sun7i_gmac_discover
        (with_regulator_lookup (inl (- EPROBE_DEFER)) pdev) boot
      = (inl (- EPROBE_DEFER), with_call stmmac_remove_config_dt_call w) /\
      sun7i_gmac_discover (with_regulator_lookup (inl (- EINVAL)) pdev) boot
      = (inr (set_regulator None gmac), w)
  | inl _ => False
  end.
Proof.
  pose (pdev := legacy_board PHY_INTERFACE_MODE_GMII no_supply).
  destruct (discover_regulator_errors pdev 5%positive boot _ _ eq_refl)
    as [H1 H2].
  assert (Hne : - EINVAL <> - EPROBE_DEFER) by discriminate.
  pose proof (H2 (- EINVAL) Hne) as H3.
  cbv zeta.
  match goal with
  | |- context [sun7i_gmac_discover (with_regulator_lookup (inr ?h) ?d) ?b] =>
      set (x := sun7i_gmac_discover (with_regulator_lookup (inr h) d) b)
  end.
  vm_compute in x. subst x. cbv beta iota.
  split; [exact H1 | exact H3].
Defined.

(** X5: a missing phy-mode property is not an error; any other failure
    to read it is.  Once the platform configuration is there and the
    private data is allocated, an error other than [-ENODEV] makes
    discovery return it at once, having only released the platform
    configuration; with [-ENODEV] discovery goes on exactly as for a
    device tree that gives the mode NA. *)
Theorem discover_phy_mode_errors (pdev : platform_device) (plat_dat : handle)
    (e : Z) (w0 : world) :
  stmmac_get_platform_resources pdev = 0 ->
  stmmac_probe_config_dt pdev = inr plat_dat ->
  devm_kzalloc pdev = true ->
  of_get_phy_mode (of_node pdev) = inl e ->
  (e <> 0 -> e <> - ENODEV ->
   sun7i_gmac_discover pdev w0
   = (inl e, with_call stmmac_remove_config_dt_call w0)) /\
  (e = - ENODEV ->
   sun7i_gmac_discover pdev w0
   = sun7i_gmac_discover
       (with_phy_mode (inr PHY_INTERFACE_MODE_NA) pdev) w0).
Proof.
  destruct pdev as [[mode syscon] res cfg kz getclk lookup falloc regul dvr].
  cbv beta iota delta
      [with_phy_mode of_node stmmac_get_platform_resources
       stmmac_probe_config_dt devm_kzalloc devm_clk_get
       syscon_regmap_lookup_by_phandle devm_regmap_field_alloc
       devm_regulator_get_optional stmmac_dvr_probe of_get_phy_mode
       of_parse_phandle_syscon].
  intros -> -> -> ->. split.
  - intros H0 H1. unfold_probe. unfold_driver.
    change (negb (0 =? 0)) with false. cbv beta iota.
    destruct (Z.eqb_spec e 0); [contradiction|].
    destruct (Z.eqb_spec e (- ENODEV)); [contradiction|].
    reflexivity.
  - intros ->. unfold_probe. reflexivity.
Qed.

Lemma discover_phy_mode_errors_witness :
  let pdev := with_phy_mode (inl (- EINVAL))
                (legacy_board PHY_INTERFACE_MODE_MII a_supply) in
  let absent := with_phy_mode (inl (- ENODEV))
                  (legacy_board PHY_INTERFACE_MODE_MII a_supply) in
  sun7i_gmac_discover pdev boot
  = (inl (- EINVAL), with_call stmmac_remove_config_dt_call boot) /\
  sun7i_gmac_discover absent boot
  = sun7i_gmac_discover
      (with_phy_mode (inr PHY_INTERFACE_MODE_NA) absent) boot.
Proof.
  cbv zeta. split.
  - refine (proj1 (discover_phy_mode_errors
                     (with_phy_mode (inl (- EINVAL))
                        (legacy_board PHY_INTERFACE_MODE_MII a_supply))
                     1%positive (- EINVAL) boot
                     eq_refl eq_refl eq_refl eq_refl) _ _); discriminate.
  - exact (proj2 (discover_phy_mode_errors
                    (with_phy_mode (inl (- ENODEV))
                       (legacy_board PHY_INTERFACE_MODE_MII a_supply))
                    1%positive (- ENODEV) boot
                    eq_refl eq_refl eq_refl eq_refl) eq_refl).
Defined.

Lemma issued_refl (w : world) : issued w w = [].
Proof.
  unfold issued. rewrite <- (app_nil_r (calls w)) at 2.
  apply skipn_app_length.
Qed.

(** X6: discovery only asks for device-managed objects.  It makes no
    clock, regulator or register call; a successful discovery never
    releases the platform configuration; a failed one either made no
    call at all (the platform resources or the platform configuration
    could not be had) or released the platform configuration exactly
    once, as its last call. *)
Theorem discover_calls (pdev : platform_device) (w0 w : world)
    (r : Z + sunxi_priv_data) :
  sun7i_gmac_discover pdev w0 = (r, w) ->
  forallb is_lookup_call (issued w0 w) = true /\
  match r with
  | inr _ => existsb is_remove_config_dt (issued w0 w) = false
  | inl _ =>
      (issued w0 w = [] /\
       (stmmac_get_platform_resources pdev <> 0 \/
        exists e, stmmac_probe_config_dt pdev = inl e)) \/
      (exists before,
         issued w0 w = before ++ [stmmac_remove_config_dt_call] /\
         existsb is_remove_config_dt before = false)
  end.
Proof.
  destruct pdev as [[mode syscon] res cfg kz getclk lookup falloc regul dvr].
  destruct w0 as [p e rate s v l].
  cbn [stmmac_get_platform_resources stmmac_probe_config_dt].
  match goal with |- _ -> ?C => set (post := C) end.
  unfold_probe. unfold_driver.
  split_matches; intros [= <- <-]; subst post;
    repeat rewrite <- app_assoc; cbn [app];
    rewrite ?issued_app, ?issued_refl;
    (split; [reflexivity|]); try reflexivity.
  all: match goal with
       | |- (?l = [] /\ _) \/ _ =>
           match l with
           | [] =>
               left; split; [reflexivity|];
               first [ right; eexists; reflexivity
                     | left;
                       match goal with
                       | H : negb (?x =? 0) = true |- ?x <> 0 =>
                           intros ->; discriminate H
                       end ]
           | _ => right; exists (removelast l); split; reflexivity
           end
       end.
Qed.

Lemma discover_calls_witness :
  let pdev := with_regulator_lookup (inl (- EPROBE_DEFER))
                (modern_board PHY_INTERFACE_MODE_RGMII no_supply) in
  let '(r, w) := sun7i_gmac_discover pdev boot in
  r = inl (- EPROBE_DEFER) /\
  forallb is_lookup_call (issued boot w) = true /\
  exists before,
    issued boot w = before ++ [stmmac_remove_config_dt_call] /\
    existsb is_remove_config_dt before = false.
Proof.
  pose (pdev := with_regulator_lookup (inl (- EPROBE_DEFER))
                  (modern_board PHY_INTERFACE_MODE_RGMII no_supply)).
  pose proof (discover_calls pdev boot _ _ eq_refl) as H.
  cbv zeta.
  set (x := sun7i_gmac_discover _ _) in *. vm_compute in x. subst x.
  cbv beta iota in H |- *.
  destruct H as [H1 [[H2 _]|H2]].
  - vm_compute in H2. discriminate H2.
  - split; [reflexivity|]. split; [exact H1 | exact H2].
Defined.

(** ** [init], [fix_speed] and [exit] *)

(** X7: the regulator comes first.  When there is a regulator and
    enabling it fails, [init] returns that error having made no other
    call: the clock, the register and the private data are untouched. *)
Theorem init_regulator_failure (fault : nat -> Z) (gmac : sunxi_priv_data)
    (r : handle) (w : world) :
  regulator gmac = Some r ->
  fault (List.length (calls w)) <> 0 ->
  sun7i_gmac_init fault gmac w
  = ((fault (List.length (calls w)), gmac),
     with_call (regulator_enable_call (fault (List.length (calls w)))) w).
Proof.
  destruct gmac as [i flag clk r0 f], w as [p e rate s v l].
  cbn [regulator calls]. intros -> Hrc.
  unfold sun7i_gmac_init. cbn [regulator].
  unfold regulator_enable, bind, outcome, emit, modify, ret. cbn [calls].
  destruct (Z.eqb_spec (fault (List.length l)) 0) as [E|_];
    [contradiction|].
  cbn [negb]. destruct (Z.eqb_spec (fault (List.length l)) 0) as [E|_];
    [contradiction|].
  reflexivity.
Qed.

Lemma init_regulator_failure_witness :
  let gmac := mk_priv PHY_INTERFACE_MODE_RGMII 0 2%positive
                (Some 5%positive) (Some 4%positive) in
  fault_at 0 (List.length (calls boot)) <> 0 /\
  sun7i_gmac_init (fault_at 0) gmac boot
  = ((- EINVAL, gmac), with_call (regulator_enable_call (- EINVAL)) boot).
Proof.
  cbv zeta.
  assert (H : fault_at 0 (List.length (calls boot)) <> 0) by discriminate.
  split; [exact H|].
  exact (init_regulator_failure (fault_at 0)
           (mk_priv PHY_INTERFACE_MODE_RGMII 0 2%positive
              (Some 5%positive) (Some 4%positive))
           5%positive boot eq_refl H).
Defined.

Lemma run_operation_world_frame (fault : nat -> Z) (gmac : sunxi_priv_data)
    (o : operation) (w : world) :
  let '(_, w') := run_operation fault gmac o w in
  (regmap_field gmac <> None ->
   clk_rate w' = clk_rate w /\
   filter is_set_rate (calls w') = filter is_set_rate (calls w)) /\
  (regmap_field gmac = None ->
   ccu_reg w' = ccu_reg w /\
   filter is_field_write (calls w') = filter is_field_write (calls w)) /\
  (regulator gmac = None ->
   supply_on w' = supply_on w /\
   filter is_regulator_call (calls w')
   = filter is_regulator_call (calls w)).
Proof.
  destruct gmac as [i flag clk r f], w as [p e rate s v l].
  destruct o as [|speed|]; unfold run_operation;
    destruct r, f; repeat step_driver fault;
    cbn [regmap_field regulator clk_rate ccu_reg supply_on calls];
    repeat rewrite <- app_assoc; cbn [app];
    repeat split; intros; try reflexivity; try congruence;
    rewrite filter_app; cbn [filter is_set_rate is_field_write
                             is_regulator_call];
    apply app_nil_r.
Qed.

(** X8: each path keeps to its own mechanism.  Over any sequence of
    [init], [fix_speed] and [exit] calls and whatever the calls return,
    the Modern path never sets the clock rate, the Legacy path never
    writes the register, and a device without a regulator never touches
    the supply. *)
Theorem operations_world_frame (fault : nat -> Z) (ops : list operation) :
  forall (gmac : sunxi_priv_data) (w : world),
  let '(_, w') := run_operations fault gmac ops w in
  (regmap_field gmac <> None ->
   clk_rate w' = clk_rate w /\
   filter is_set_rate (calls w') = filter is_set_rate (calls w)) /\
  (regmap_field gmac = None ->
   ccu_reg w' = ccu_reg w /\
   filter is_field_write (calls w') = filter is_field_write (calls w)) /\
  (regulator gmac = None ->
   supply_on w' = supply_on w /\
   filter is_regulator_call (calls w')
   = filter is_regulator_call (calls w)).
Proof.
  induction ops as [|o rest IH]; intros gmac w.
  - cbn. repeat split; reflexivity.
  - cbn [run_operations]. unfold bind.
    pose proof (run_operation_world_frame fault gmac o w) as H1.
    pose proof (run_operation_frame fault gmac o w) as F1.
    destruct (run_operation fault gmac o w) as [g1 w1].
    destruct F1 as (_ & _ & Fr & Ff & _).
    pose proof (IH g1 w1) as H2.
    destruct (run_operations fault g1 rest w1) as [g2 w2].
    destruct H1 as (A1 & B1 & C1). destruct H2 as (A2 & B2 & C2).
    rewrite Ff in A2, B2. rewrite Fr in C2.
    split; [|split]; intros H; split.
    + destruct (A1 H) as [E1 _]. destruct (A2 H) as [E2 _]. congruence.
    + destruct (A1 H) as [_ E1]. destruct (A2 H) as [_ E2]. congruence.
    + destruct (B1 H) as [E1 _]. destruct (B2 H) as [E2 _]. congruence.
    + destruct (B1 H) as [_ E1]. destruct (B2 H) as [_ E2]. congruence.
    + destruct (C1 H) as [E1 _]. destruct (C2 H) as [E2 _]. congruence.
    + destruct (C1 H) as [_ E1]. destruct (C2 H) as [_ E2]. congruence.
Qed.

Lemma operations_world_frame_witness :
  let ops := [op_init; op_fix_speed 1000; op_fix_speed 10; op_exit] in
  (let gmac := mk_priv PHY_INTERFACE_MODE_GMII 0 2%positive None None in
   regmap_field gmac = None /\ regulator gmac = None /\
   let '(_, w') := run_operations no_fault gmac ops boot in
   ccu_reg w' = ccu_reg boot /\ supply_on w' = supply_on boot) /\
  (let gmac := mk_priv PHY_INTERFACE_MODE_GMII 0 2%positive None
                 (Some 4%positive) in
   regmap_field gmac <> None /\
   let '(_, w') := run_operations no_fault gmac ops boot in
   clk_rate w' = clk_rate boot).
Proof.
  cbv zeta. split.
  - pose proof (operations_world_frame no_fault
                  [op_init; op_fix_speed 1000; op_fix_speed 10; op_exit]
                  (mk_priv PHY_INTERFACE_MODE_GMII 0 2%positive None None)
                  boot) as H.
    split; [reflexivity|]. split; [reflexivity|].
    destruct (run_operations no_fault _ _ boot) as [g' w'].
    destruct H as (_ & B & C).
    destruct (B eq_refl) as [B1 _]. destruct (C eq_refl) as [C1 _].
    split; assumption.
  - pose proof (operations_world_frame no_fault
                  [op_init; op_fix_speed 1000; op_fix_speed 10; op_exit]
                  (mk_priv PHY_INTERFACE_MODE_GMII 0 2%positive None
                     (Some 4%positive))
                  boot) as H.
    assert (Hn : Some 4%positive <> (None : option handle))
      by discriminate.
    split; [exact Hn|].
    destruct (run_operations no_fault _ _ boot) as [g' w'].
    destruct H as (A & _ & _). destruct (A Hn) as [A1 _]. exact A1.
Defined.

Lemma run_operation_same_class (fault : nat -> Z) (gmac : sunxi_priv_data)
    (m m' : phy_interface_t) (o : operation) (w : world) :
  same_class m m' ->
  let '(gmac1, w1) := run_operation fault (set_interface m gmac) o w in
  run_operation fault (set_interface m' gmac) o w
  = (set_interface m' gmac1, w1).
Proof.
  destruct gmac as [i flag clk r f], w as [p e rate s v l].
  intros [Hr Hg].
  destruct o as [|speed|];
    unfold run_operation, sun7i_gmac_init, sun7i_fix_speed, sun7i_gmac_exit;
    cbn [set_interface interface clk_enabled tx_clk regulator regmap_field];
    revert Hr Hg;
    destruct (phy_interface_mode_is_rgmii m),
             (phy_interface_mode_is_rgmii m'),
             (is_gmii m), (is_gmii m');
    intros Hr Hg; try discriminate Hr; try discriminate Hg;
    destruct r, f; repeat step_driver fault; reflexivity.
Qed.

(** X9: the interface mode matters only through two questions, whether
    it is in the RGMII family and whether it is GMII.  For two modes
    that answer both alike, every sequence of [init], [fix_speed] and
    [exit] calls makes the same calls and reaches the same world; only
    the stored mode differs. *)
Theorem operations_same_class (fault : nat -> Z) (m m' : phy_interface_t)
    (ops : list operation) :
  same_class m m' ->
  forall (gmac : sunxi_priv_data) (w : world),
  let '(gmac1, w1) := run_operations fault (set_interface m gmac) ops w in
  run_operations fault (set_interface m' gmac) ops w
  = (set_interface m' gmac1, w1).
Proof.
  intros Hc. induction ops as [|o rest IH]; intros gmac w.
  - cbn. destruct gmac; reflexivity.
  - cbn [run_operations]. unfold bind.
    pose proof (run_operation_same_class fault gmac m m' o w Hc) as H1.
    pose proof (run_operation_frame fault (set_interface m gmac) o w) as F.
    destruct (run_operation fault (set_interface m gmac) o w) as [g1 w1].
    rewrite H1. destruct F as (Fi & _).
    assert (Eg : g1 = set_interface m g1).
    { destruct g1, gmac; cbn in Fi |- *. subst. reflexivity. }
    pose proof (IH g1 w1) as H2. rewrite <- Eg in H2.
    destruct (run_operations fault g1 rest w1) as [g2 w2].
    exact H2.
Qed.

Lemma operations_same_class_witness :
  let ops := [op_init; op_fix_speed 1000; op_exit] in
  let gmac := mk_priv PHY_INTERFACE_MODE_NA 0 2%positive
                (Some 5%positive) None in
  same_class PHY_INTERFACE_MODE_NA PHY_INTERFACE_MODE_MII /\
  snd (run_operations no_fault
         (set_interface PHY_INTERFACE_MODE_MII gmac) ops boot)
  = snd (run_operations no_fault
           (set_interface PHY_INTERFACE_MODE_NA gmac) ops boot).
Proof.
  cbv zeta.
  assert (Hc : same_class PHY_INTERFACE_MODE_NA PHY_INTERFACE_MODE_MII)
    by (split; reflexivity).
  pose proof (operations_same_class no_fault _ _
                [op_init; op_fix_speed 1000; op_exit] Hc
                (mk_priv PHY_INTERFACE_MODE_NA 0 2%positive
                   (Some 5%positive) None) boot) as H.
  split; [exact Hc|].
  destruct (run_operations no_fault
              (set_interface PHY_INTERFACE_MODE_NA _) _ boot) as [g1 w1].
  rewrite H. reflexivity.
Defined.

Lemma fix_speed_settles (fault : nat -> Z) (gmac : sunxi_priv_data)
    (speed : Z) (w : world) :
  flag_covers_clock gmac w ->
  let '(gmac', w') := sun7i_fix_speed fault gmac speed w in
  all_ok (issued w w') = true ->
  observe gmac' w' = settled gmac speed w.
Proof.
  destruct gmac as [i flag clk r f], w as [p e rate s v l].
  unfold flag_covers_clock.
  cbn [regmap_field clk_running clk_enabled]. intros Hc.
  unfold observe, settled, regmap_field_read.
  cbn [regmap_field interface supply_on clk_rate ccu_reg].
  destruct f; [|destruct (is_gmii i) eqn:Hg];
    unfold sun7i_fix_speed; cbn [regmap_field interface]; rewrite ?Hg;
    run_driver fault; intros; try congruence;
    cbn [ccu_reg clk_rate clk_prepared clk_running supply_on
         set_clk_enabled interface clk_enabled tx_clk regulator
         regmap_field];
    rewrite ?field_get_update_rgmii, ?field_get_update_mii;
    try reflexivity.
  all: destruct e; [exfalso; apply Hc; reflexivity | reflexivity].
Qed.

Lemma settled_after_fix_speed (fault : nat -> Z) (gmac : sunxi_priv_data)
    (before speed : Z) (w : world) :
  let '(gmac1, w1) := sun7i_fix_speed fault gmac before w in
  settled gmac1 speed w1 = settled gmac speed w.
Proof.
  destruct gmac as [i flag clk r f], w as [p e rate s v l].
  unfold settled, observe, regmap_field_read.
  destruct f; [|destruct (is_gmii i) eqn:Hg];
    unfold sun7i_fix_speed; cbn [regmap_field interface]; rewrite ?Hg;
    run_driver fault; try congruence;
    cbn [regmap_field interface supply_on clk_rate ccu_reg
         set_clk_enabled clk_enabled tx_clk regulator];
    rewrite ?Hg; try congruence; reflexivity.
Qed.

(** X11: the latest speed wins.  In any state reached after a successful
    [init], on either path, [fix_speed] for a speed leaves the same
    observable state whether or not a [fix_speed] for some other speed
    ran just before it, whatever became of the calls of that earlier
    one, provided the clock calls of the last [fix_speed] do not fail in
    either run.  The two runs are taken in environments of their own. *)
Theorem fix_speed_last_wins (fault fault' : nat -> Z)
    (gmac : sunxi_priv_data) (before speed : Z) (w : world) :
  post_init fault gmac w ->
  let '(gmac1, w1) := sun7i_fix_speed fault gmac before w in
  let '(gmac2, w2) := sun7i_fix_speed fault gmac1 speed w1 in
  let '(gmac3, w3) := sun7i_fix_speed fault' gmac speed w in
  all_ok (issued w1 w2) = true ->
  all_ok (issued w w3) = true ->
  observe gmac2 w2 = observe gmac3 w3.
Proof.
  intros Hp. destruct (post_init_state _ _ _ Hp) as [Hc _]. clear Hp.
  pose proof (fix_speed_covers fault gmac before w Hc) as Hc1.
  pose proof (settled_after_fix_speed fault gmac before speed w) as Hs.
  destruct (sun7i_fix_speed fault gmac before w) as [gmac1 w1].
  pose proof (fix_speed_settles fault gmac1 speed w1 Hc1) as H2.
  destruct (sun7i_fix_speed fault gmac1 speed w1) as [gmac2 w2].
  pose proof (fix_speed_settles fault' gmac speed w Hc) as H3.
  destruct (sun7i_fix_speed fault' gmac speed w) as [gmac3 w3].
  intros A B. rewrite (H2 A), (H3 B). exact Hs.
Qed.

(** After a failed re-arm in the earlier call (its prepare, call 9,
    fails and leaves the clock stopped), the later call still ends where
    a lone call does. *)
Lemma fix_speed_last_wins_witness :
  let pdev := modern_board PHY_INTERFACE_MODE_RGMII no_supply in
  let '(r, w) := bring_up (fault_at 9) pdev [] boot in
  match r with
  | Some gmac =>
      post_init (fault_at 9) gmac w /\
      (let '(gmac1, w1) := sun7i_fix_speed (fault_at 9) gmac 1000 w in
       let '(gmac2, w2) := sun7i_fix_speed (fault_at 9) gmac1 100 w1 in
       let '(gmac3, w3) := sun7i_fix_speed no_fault gmac 100 w in
       failed_prepare (issued w w1) = true /\ clk_running w1 = false /\
       all_ok (issued w1 w2) = true /\ all_ok (issued w w3) = true /\
       clk_running w2 = true /\
       observe gmac2 w2 = observe gmac3 w3)
  | None => False
  end.
Proof.
  cbv zeta.
  destruct (bring_up (fault_at 9)
              (modern_board PHY_INTERFACE_MODE_RGMII no_supply) [] boot)
    as [r w] eqn:Eb.
  vm_compute in Eb. injection Eb as <- <-.
  match goal with
  | |- post_init _ ?g ?w /\ _ =>
      assert (Hpi : post_init (fault_at 9) g w);
      [ exists (modern_board PHY_INTERFACE_MODE_RGMII no_supply), [], boot;
        split; [split; reflexivity | vm_compute; reflexivity]
      | pose proof (fix_speed_last_wins (fault_at 9) no_fault g 1000 100 w
                      Hpi) as H ]
  end.
  split; [exact Hpi|]. clear Hpi.
  repeat (match goal with
          | |- context [sun7i_fix_speed ?f ?g ?s ?w] =>
              let E := fresh "E" in
              destruct (sun7i_fix_speed f g s w) as [? ?] eqn:E;
              vm_compute in E; injection E as <- <-
          end).
  split; [reflexivity|]. split; [reflexivity|]. split; [reflexivity|].
  split; [reflexivity|]. split; [reflexivity|].
  exact (H eq_refl eq_refl).
Defined.

(** ** [probe] *)

Lemma discover_error_nonzero (pdev : platform_device) (w0 w : world) (e : Z) :
  errors_nonzero pdev ->
  sun7i_gmac_discover pdev w0 = (inl e, w) -> e <> 0.
Proof.
  destruct pdev as [[mode syscon] res cfg kz getclk lookup falloc regul dvr].
  destruct w0 as [p e0 rate s v l].
  unfold errors_nonzero.
  cbn [stmmac_probe_config_dt devm_clk_get syscon_regmap_lookup_by_phandle
       devm_regmap_field_alloc].
  intros (Hcfg & Hclk & Hlook & Hfall).
  pose proof (Hclk "stmmaceth"%string) as Hc1.
  pose proof (Hclk "allwinner_gmac_tx"%string) as Hc2. clear Hclk.
  destruct syscon as [[[[[rm|]]|]]|]; destruct mode as [em|m].
  all: match goal with |- _ -> ?C => set (post := C) end.
  all: unfold_probe; unfold_driver.
  all: split_matches; intros [= <- <-]; subst post;
    try discriminate;
    repeat match goal with
           | H : ?x = inl _, H' : is_error ?x |- _ =>
               rewrite H in H'; cbn [is_error] in H'
           | H : ?f ?a = inl _, H' : forall r, is_error (?f r) |- _ =>
               let Hn := fresh "Hn" in
               pose proof (H' a) as Hn; clear H';
               rewrite H in Hn; cbn [is_error] in Hn
           end;
    try assumption.
  all: try (intros ->; discriminate).
  all: match goal with
       | H : negb (?x =? 0) && _ = true |- ?x <> 0 =>
           intros E; rewrite E in H; discriminate H
       | H : negb (?x =? 0) = true |- ?x <> 0 =>
           intros E; rewrite E in H; discriminate H
       end.
Qed.

(** X12: [probe] returns 0 exactly when it hands the private data over
    to the MAC framework, given that failed lookups carry a non-zero
    error as error pointers do. *)
Theorem probe_success_iff (fault : nat -> Z) (pdev : platform_device)
    (w0 : world) :
  errors_nonzero pdev ->
  let '((rc, priv), _) := sun7i_gmac_probe fault pdev w0 in
  rc = 0 <-> priv <> None.
Proof.
  intros He. unfold sun7i_gmac_probe, bind.
  destruct (sun7i_gmac_discover pdev w0) as [[e|g0] w1] eqn:Hd.
  - unfold ret. pose proof (discover_error_nonzero _ _ _ _ He Hd).
    split; intros; congruence.
  - destruct (sun7i_gmac_init fault g0 w1) as [[rc g1] w2].
    destruct (Z.eqb_spec rc 0) as [->|Hrc]; cbn [negb].
    + destruct (Z.eqb_spec (stmmac_dvr_probe pdev) 0) as [Hp|Hp];
        cbn [negb]; unfold emit, modify, ret.
      * split; intros; congruence.
      * destruct (sun7i_gmac_exit g1 _) as [g2 w3].
        split; intros; congruence.
    + unfold emit, modify, ret. split; intros; congruence.
Qed.

Lemma probe_success_iff_witness :
  let good := modern_board PHY_INTERFACE_MODE_RGMII a_supply in
  errors_nonzero good /\
  fst (fst (sun7i_gmac_probe no_fault good boot)) = 0 /\
  snd (fst (sun7i_gmac_probe no_fault good boot)) <> None.
Proof.
  cbv zeta.
  assert (He : errors_nonzero (modern_board PHY_INTERFACE_MODE_RGMII a_supply)).
  { unfold errors_nonzero; cbn. repeat split; try exact I.
    discriminate. }
  pose proof (probe_success_iff no_fault _ boot He) as H.
  split; [exact He|].
  destruct (sun7i_gmac_probe no_fault _ boot) as [[rc priv] w] eqn:E.
  cbn [fst snd].
  assert (Hrc : rc = 0) by (vm_compute in E; congruence).
  split; [exact Hrc | exact (proj1 H Hrc)].
Defined.

Lemma bring_up_nil (fault : nat -> Z) (pdev : platform_device)
    (w0 w : world) (gmac : sunxi_priv_data) :
  bring_up fault pdev [] w0 = (Some gmac, w) ->
  exists g0 w1,
    sun7i_gmac_discover pdev w0 = (inr g0, w1) /\
    sun7i_gmac_init fault g0 w1 = ((0, gmac), w).
Proof.
  unfold bring_up, bind.
  destruct (sun7i_gmac_discover pdev w0) as [[e|g0] w1] eqn:Hd;
    [intros [=]|].
  destruct (sun7i_gmac_init fault g0 w1) as [[rc g1] w2] eqn:Hi.
  cbn [fst snd fix_speeds].
  destruct (Z.eqb_spec rc 0) as [->|_]; [|intros [=]].
  unfold ret. intros [= <- <-]. exists g0, w1. split; [reflexivity|exact Hi].
Qed.

(** A failing [init] leaves an unused clock unused. *)
Lemma init_failure_clock (fault : nat -> Z) (gmac : sunxi_priv_data)
    (w : world) :
  clk_unused w ->
  let '((rc, _), w') := sun7i_gmac_init fault gmac w in
  rc <> 0 -> clk_unused w'.
Proof.
  destruct gmac as [i flag clk r f], w as [p e rate s v l].
  unfold clk_unused. cbn [clk_prepared clk_running]. intros [-> ->].
  destruct r, f; run_driver fault; cbn [clk_prepared clk_running];
    intros; try congruence; split; reflexivity.
Qed.

(** X13: when the MAC framework's own probe fails after a successful
    [init], [probe] undoes [init] through [exit] before it returns the
    framework's error: the clock ends stopped and unprepared, the supply
    off, the mode-select field at zero, no private data is handed over,
    and the release of the platform configuration is the last call. *)
Theorem probe_dvr_failure_unwinds (fault : nat -> Z) (pdev : platform_device)
    (w0 w : world) (gmac : sunxi_priv_data) :
  clk_unused w0 ->
  bring_up fault pdev [] w0 = (Some gmac, w) ->
  stmmac_dvr_probe pdev <> 0 ->
  let '((rc, priv), w') := sun7i_gmac_probe fault pdev w0 in
  rc = stmmac_dvr_probe pdev /\ priv = None /\
  clk_prepared w' = false /\ clk_running w' = false /\
  (regulator gmac <> None -> supply_on w' = false) /\
  (regmap_field gmac <> None -> regmap_field_read w' = 0) /\
  exists mid,
    issued w w' = stmmac_dvr_probe_call rc :: mid
                  ++ [stmmac_remove_config_dt_call].
Proof.
  intros Hw0 Hb Hdvr.
  destruct (bring_up_nil _ _ _ _ _ Hb) as (g0 & w1 & Hd & Hi).
  destruct (init_state _ _ _ _ _ _ _ _ Hw0 Hd Hi) as [Hc _].
  unfold sun7i_gmac_probe, bind. rewrite Hd, Hi.
  change (negb (0 =? 0)) with false. cbv beta iota.
  destruct (Z.eqb_spec (stmmac_dvr_probe pdev) 0) as [E|_];
    [contradiction|].
  cbn [negb]. generalize (stmmac_dvr_probe pdev) as dvr. intros dvr.
  clear Hd Hi Hb Hw0 Hdvr.
  destruct gmac as [i flag clk r f], w as [p e rate s v l].
  unfold flag_covers_clock in Hc.
  cbn [regmap_field clk_running clk_enabled] in Hc.
  unfold regmap_field_read.
  destruct f, r; run_driver fault;
    cbn [ccu_reg clk_prepared clk_running supply_on regmap_field regulator];
    rewrite ?field_get_update_zero;
    repeat split; intros; try reflexivity; try congruence;
    try (destruct e; [exfalso; apply Hc; reflexivity | reflexivity]).
  all: match goal with
       | |- exists mid, ?c :: ?l = ?c :: _ =>
           exists (removelast l); reflexivity
       end.
Qed.

Lemma probe_dvr_failure_unwinds_witness :
  let pdev := modern_board PHY_INTERFACE_MODE_RGMII a_supply in
  let failing :=
    mk_platform_device (of_node pdev) 0 (inr 1%positive) true
      (devm_clk_get pdev) (syscon_regmap_lookup_by_phandle pdev)
      (devm_regmap_field_alloc pdev) (devm_regulator_get_optional pdev)
      (- EINVAL) in
  clk_unused boot /\ stmmac_dvr_probe failing <> 0 /\
  (let '(r, w) := bring_up no_fault failing [] boot in
   r <> None /\ clk_running w = true /\ supply_on w = true) /\
  (let '((rc, priv), w') := sun7i_gmac_probe no_fault failing boot in
   rc = - EINVAL /\ priv = None /\
   clk_prepared w' = false /\ clk_running w' = false /\
   supply_on w' = false /\ regmap_field_read w' = 0).
Proof.
  cbv zeta.
  set (failing := mk_platform_device _ _ _ _ _ _ _ _ _).
  assert (H0 : clk_unused boot) by (split; reflexivity).
  assert (Hd : stmmac_dvr_probe failing <> 0) by discriminate.
  pose proof (probe_dvr_failure_unwinds no_fault failing boot _ _ H0
                eq_refl Hd) as H.
  split; [exact H0|]. split; [exact Hd|].
  split; [vm_compute; repeat split; try reflexivity; discriminate|].
  destruct (sun7i_gmac_probe no_fault failing boot) as [[rc priv] w'].
  destruct H as (H1 & H2 & H3 & H4 & H5 & H6 & _).
  split; [exact H1|]. split; [exact H2|]. split; [exact H3|].
  split; [exact H4|].
  split; [apply H5 | apply H6]; discriminate.
Defined.

Lemma exit_clock (gmac : sunxi_priv_data) (w : world) :
  flag_covers_clock gmac w ->
  let '(_, w') := sun7i_gmac_exit gmac w in clk_unused w'.
Proof.
  destruct gmac as [i flag clk r f], w as [p e rate s v l].
  unfold flag_covers_clock, clk_unused.
  cbn [regmap_field clk_running clk_enabled]. intros Hc.
  destruct f, r;
    repeat (first [ progress unfold_driver
                  | progress (change (0 =? 0) with true)
                  | progress simpl_tests
                  | match goal with
                    | |- context [?x =? ?y] =>
                        is_var x; destruct (Z.eqb_spec x y); [subst x|]
                    end ]);
    cbn [clk_prepared clk_running]; split; try reflexivity;
    try (destruct e; [exfalso; apply Hc; reflexivity | reflexivity]).
Qed.

(** X14: whenever [probe] fails, at whatever step and whatever the
    clock calls returned, a clock that was unused before is unused
    again when [probe] returns: neither prepared nor running. *)
Theorem probe_failure_releases_clock (fault : nat -> Z)
    (pdev : platform_device) (w0 w : world) (rc : Z) :
  clk_unused w0 ->
  sun7i_gmac_probe fault pdev w0 = ((rc, None), w) ->
  clk_unused w.
Proof.
  intros Hw0. unfold sun7i_gmac_probe, bind.
  destruct (sun7i_gmac_discover pdev w0) as [[e|g0] w1] eqn:Hd.
  - unfold ret. intros [= <- <-].
    exact (discover_unused _ _ _ _ Hw0 Hd).
  - pose proof (discover_unused _ _ _ _ Hw0 Hd) as Hw1.
    pose proof (init_failure_clock fault g0 w1 Hw1) as Hf.
    destruct (sun7i_gmac_init fault g0 w1) as [[rc' g1] w2] eqn:Hi.
    destruct (Z.eqb_spec rc' 0) as [->|Hrc]; cbn [negb].
    + destruct (Z.eqb_spec (stmmac_dvr_probe pdev) 0) as [Hp|Hp];
        cbn [negb]; unfold emit, modify, ret.
      * intros [=].
      * destruct (init_state _ _ _ _ _ _ _ _ Hw0 Hd Hi) as [Hc _].
        assert (Hc' : flag_covers_clock g1
                        (with_call (stmmac_dvr_probe_call
                                      (stmmac_dvr_probe pdev)) w2))
          by (destruct w2; exact Hc).
        pose proof (exit_clock _ _ Hc') as Hx.
        destruct (sun7i_gmac_exit g1 _) as [g2 w3].
        intros [= <- <-]. destruct w3; exact Hx.
    + unfold emit, modify, ret. intros [= <- <-].
      pose proof (Hf Hrc) as Hu. destruct w2; exact Hu.
Qed.

Lemma probe_failure_releases_clock_witness :
  let pdev := modern_board PHY_INTERFACE_MODE_RGMII no_supply in
  clk_unused boot /\
  (let '((rc, priv), w) := sun7i_gmac_probe (fault_at 5) pdev boot in
   rc = - EINVAL /\ priv = None /\ failed_enable (calls w) = true /\
   clk_unused w).
Proof.
  cbv zeta.
  assert (H0 : clk_unused boot) by (split; reflexivity).
  split; [exact H0|].
  pose proof (probe_failure_releases_clock (fault_at 5)
                (modern_board PHY_INTERFACE_MODE_RGMII no_supply) boot) as H.
  destruct (sun7i_gmac_probe (fault_at 5) _ boot) as [[rc priv] w] eqn:E.
  vm_compute in E. injection E as <- <- <-.
  split; [reflexivity|]. split; [reflexivity|]. split; [reflexivity|].
  exact (H _ _ H0 eq_refl).
Defined.

(** ** Composition *)

Lemma fix_speed_supply (fault : nat -> Z) (gmac : sunxi_priv_data)
    (speed : Z) (w : world) :
  let '(_, w') := sun7i_fix_speed fault gmac speed w in
  supply_on w' = supply_on w /\
  filter is_regulator_call (calls w') = filter is_regulator_call (calls w).
Proof.
  destruct gmac as [i flag clk r f], w as [p e rate s v l].
  destruct f; repeat step_driver fault;
    cbn [supply_on calls];
    repeat rewrite <- app_assoc; cbn [app];
    (split; [reflexivity|]); try reflexivity;
    rewrite filter_app; cbn [filter is_regulator_call]; apply app_nil_r.
Qed.

(** X15: link-speed events never touch the PHY supply.  Over any list
    of [fix_speed] calls, with or without a regulator and whatever the
    clock calls return, the supply stays as it was and no regulator call
    is made. *)
Theorem fix_speeds_supply (fault : nat -> Z) (speeds : list Z) :
  forall (gmac : sunxi_priv_data) (w : world),
  let '(_, w') := fix_speeds fault gmac speeds w in
  supply_on w' = supply_on w /\
  filter is_regulator_call (calls w') = filter is_regulator_call (calls w).
Proof.
  induction speeds as [|speed rest IH]; intros gmac w.
  - cbn. split; reflexivity.
  - cbn [fix_speeds]. unfold bind.
    pose proof (fix_speed_supply fault gmac speed w) as H1.
    destruct (sun7i_fix_speed fault gmac speed w) as [g1 w1].
    pose proof (IH g1 w1) as H2.
    destruct (fix_speeds fault g1 rest w1) as [g2 w2].
    destruct H1 as [A1 B1], H2 as [A2 B2]. split; congruence.
Qed.

(** X16: [exit] followed by [init] gives back what the first [init]
    gave.  From the state discovery hands over, on either path, when the
    calls of both [init]s succeed, both return 0 and the state observed
    after [init], [exit], [init] is the one observed after the first
    [init]. *)
Theorem init_exit_init (fault : nat -> Z) (pdev : platform_device)
    (w0 w : world) (gmac : sunxi_priv_data) :
  clk_unused w0 ->
  sun7i_gmac_discover pdev w0 = (inr gmac, w) ->
  let '((rc1, gmac1), w1) := sun7i_gmac_init fault gmac w in
  let '(gmac2, w2) := sun7i_gmac_exit gmac1 w1 in
  let '((rc3, gmac3), w3) := sun7i_gmac_init fault gmac2 w2 in
  all_ok (issued w w1) = true ->
  all_ok (issued w2 w3) = true ->
  rc1 = 0 /\ rc3 = 0 /\ observe gmac3 w3 = observe gmac1 w1.
Proof.
  intros Hw0 Hd.
  destruct (discover_priv _ _ _ _ Hd) as [Hflag _].
  destruct (discover_unused _ _ _ _ Hw0 Hd) as [Hp He].
  clear Hd Hw0.
  destruct gmac as [i flag clk r f], w as [p e rate s v l].
  cbn [clk_enabled clk_prepared clk_running] in *. subst flag p e.
  unfold observe, regmap_field_read.
  destruct r, f; repeat step_driver fault;
    repeat rewrite <- app_assoc; cbn [app];
    rewrite ?issued_app_app, ?issued_app;
    cbn [skipn List.length];
    repeat step_driver fault;
    cbn [ccu_reg clk_rate clk_prepared clk_running supply_on];
    rewrite ?field_get_update_rgmii, ?field_get_update_mii;
    intros; try discriminate; try congruence;
    repeat split; reflexivity.
Qed.

Lemma init_exit_init_witness :
  let pdev := legacy_board PHY_INTERFACE_MODE_RGMII a_supply in
  clk_unused boot /\
  (let '(d, w) := sun7i_gmac_discover pdev boot in
   match d with
   | inr gmac =>
       let '((rc1, gmac1), w1) := sun7i_gmac_init no_fault gmac w in
       let '(gmac2, w2) := sun7i_gmac_exit gmac1 w1 in
       let '((rc3, gmac3), w3) := sun7i_gmac_init no_fault gmac2 w2 in
       clk_running w1 = true /\ clk_running w2 = false /\
       rc1 = 0 /\ rc3 = 0 /\ observe gmac3 w3 = observe gmac1 w1
   | inl _ => False
   end).
Proof.
  cbv zeta.
  assert (H0 : clk_unused boot) by (split; reflexivity).
  pose proof (init_exit_init no_fault
                (legacy_board PHY_INTERFACE_MODE_RGMII a_supply)
                boot _ _ H0 eq_refl) as H.
  split; [exact H0|].
  vm_compute in H. vm_compute.
  destruct (H eq_refl eq_refl) as (H1 & H2 & H3).
  repeat split; assumption || reflexivity.
Defined.
